(** * server.js: the Calendly OAuth relay, as a shallow embedding

    The Fastify server of [server.js] keeps one access token in the module
    variable [storedToken] and forwards a handful of requests to the Calendly
    API.  Each route handler is embedded as a function from the inbound
    request and the current world (the token and the log of upstream calls)
    to the new world and the reply that was sent.

    Conventions of the embedding:
    - a JavaScript value is a [value]; numbers are the integers that
      JavaScript prints in plain decimal, strings are byte strings (the UTF-8
      form of the JavaScript string, so that percent-encoding works byte by
      byte);
    - the network is an oracle [upstream] that tells, for each call of
      [fetch], whether it throws, and otherwise the status of the response
      and the result of [response.json()];
    - the body of an upstream call is kept as the value handed to
      [JSON.stringify], and the payload of a reply as the value handed to
      [reply.send];
    - one handler runs from its first line to its reply without another
      handler in between;
    - the two handlers of the colour-picker page ([GET /] and [POST /]) render
      a template and never mention [storedToken]; they are left out. *)

From Stdlib Require Import ZArith String List Ascii Bool Lia.
From Stdlib Require Import DecimalString.
Import ListNotations.

Local Open Scope string_scope.
Local Open Scope Z_scope.

(** ** JavaScript values and the built-ins the server relies on *)

Module JS.

#[warnings="-register-all"]
Inductive value : Type :=
| VUndefined
| VNull
| VBool (b : bool)
| VNum (n : Z)
| VStr (s : string)
| VArr (elems : list value)
| VObj (fields : list (string * value)).

(** Own properties of an object, in property order. *)
Definition object := list (string * value).

Fixpoint lookup (k : string) (o : object) : option value :=
  match o with
  | [] => None
  | (k', v) :: rest => if String.eqb k' k then Some v else lookup k rest
  end.

(** [o.k] on an object: a missing property reads as [undefined]. *)
Definition get (o : object) (k : string) : value :=
  match lookup k o with
  | Some v => v
  | None => VUndefined
  end.

(** [o.k = v]: an existing property keeps its place, a new one goes last. *)
Fixpoint set_prop (k : string) (v : value) (o : object) : object :=
  match o with
  | [] => [(k, v)]
  | (k', v') :: rest =>
      if String.eqb k' k then (k, v) :: rest else (k', v') :: set_prop k v rest
  end.

(** ToBoolean, as in [if (!x)]. *)
Definition truthy (v : value) : bool :=
  match v with
  | VUndefined | VNull => false
  | VBool b => b
  | VNum n => negb (n =? 0)
  | VStr s => negb (String.eqb s "")
  | VArr _ | VObj _ => true
  end.

Definition string_of_Z (n : Z) : string := NilZero.string_of_int (Z.to_int n).
Definition string_of_nat (n : nat) : string := NilZero.string_of_uint (Nat.to_uint n).

(** ToString, as a template literal applies it to [${x}].  A number is
    printed in plain decimal, as JavaScript does for the integers below
    10^21 in magnitude; the properties below that depend on a printed token
    are stated for strings. *)
Fixpoint to_string (v : value) : string :=
  match v with
  | VUndefined => "undefined"
  | VNull => "null"
  | VBool true => "true"
  | VBool false => "false"
  | VNum n => string_of_Z n
  | VStr s => s
  | VArr elems =>
      String.concat ","
        (map (fun e => match e with
                       | VUndefined | VNull => ""
                       | _ => to_string e
                       end) elems)
  | VObj _ => "[object Object]"
  end.

(** [a === b] where one side is a primitive literal.  An array or an object
    is never strictly equal to a primitive. *)
Definition strict_equals (a b : value) : bool :=
  match a, b with
  | VUndefined, VUndefined => true
  | VNull, VNull => true
  | VBool x, VBool y => Bool.eqb x y
  | VNum x, VNum y => x =? y
  | VStr x, VStr y => String.eqb x y
  | _, _ => false
  end.

(** [v.k] for the two property names the server reads off a parsed JSON
    document, [active] and [access_token].  Reading a property of [null] or
    [undefined] throws a TypeError ([None]); no primitive and no array has a
    property of either name. *)
Definition get_prop (v : value) (k : string) : option value :=
  match v with
  | VUndefined | VNull => None
  | VObj o => Some (get o k)
  | VBool _ | VNum _ | VStr _ | VArr _ => Some VUndefined
  end.

Fixpoint index_from {A : Type} (i : nat) (l : list A) : list (string * A) :=
  match l with
  | [] => []
  | x :: rest => (string_of_nat i, x) :: index_from (S i) rest
  end.

Fixpoint chars (s : string) : list value :=
  match s with
  | EmptyString => []
  | String c rest => VStr (String c EmptyString) :: chars rest
  end.

(** The properties that [{...v}] copies: those of an object, the indexed
    elements of an array, the indexed characters of a string (of an ASCII
    string, in this byte model), none of another primitive. *)
Definition own_props (v : value) : object :=
  match v with
  | VObj o => o
  | VArr elems => index_from 0 elems
  | VStr s => index_from 0 (chars s)
  | VUndefined | VNull | VBool _ | VNum _ => []
  end.

(** *** Percent-encoding *)

Definition hex_digit (n : N) : ascii :=
  if (n <? 10)%N then ascii_of_N (48 + n) else ascii_of_N (55 + n).

Definition percent_encode (c : ascii) : string :=
  let n := N_of_ascii c in
  String "%" (String (hex_digit (n / 16)) (String (hex_digit (n mod 16)) EmptyString)).

Definition is_alnum (c : ascii) : bool :=
  let n := N_of_ascii c in
  ((48 <=? n) && (n <=? 57) || (65 <=? n) && (n <=? 90) || (97 <=? n) && (n <=? 122))%N.

Fixpoint mem_ascii (c : ascii) (s : string) : bool :=
  match s with
  | EmptyString => false
  | String d rest => Ascii.eqb c d || mem_ascii c rest
  end.

(** [encodeURIComponent]: letters, digits and [-_.!~*'()] stay. *)
Fixpoint encodeURIComponent (s : string) : string :=
  match s with
  | EmptyString => EmptyString
  | String c rest =>
      (if is_alnum c || mem_ascii c "-_.!~*'()"
       then String c EmptyString
       else percent_encode c) ++ encodeURIComponent rest
  end.

(** The application/x-www-form-urlencoded byte serializer used by
    [URLSearchParams.prototype.toString]: letters, digits and [*-._] stay, a
    space becomes [+]. *)
Fixpoint urlencode (s : string) : string :=
  match s with
  | EmptyString => EmptyString
  | String c rest =>
      (if is_alnum c || mem_ascii c "*-._" then String c EmptyString
       else if Ascii.eqb c " " then "+"
       else percent_encode c) ++ urlencode rest
  end.

(** [new URLSearchParams(o)]: one pair per own property, the value converted
    to a string. *)
Definition URLSearchParams (o : object) : list (string * string) :=
  map (fun kv => (fst kv, to_string (snd kv))) o.

(** [params.toString()]. *)
Definition URLSearchParams_toString (ps : list (string * string)) : string :=
  String.concat "&" (map (fun kv => urlencode (fst kv) ++ "=" ++ urlencode (snd kv)) ps).

End JS.

(** ** The server *)

Module Server.
Import JS.

(** What a handler reads of the inbound request: [req.query], [req.params]
    and [req.body].  Fastify always hands over objects for the first two. *)
Record request : Type := {
  req_query : object;
  req_params : object;
  req_body : value
}.

(** One call of [fetch(url, {method, headers, body})]. *)
Record fetch_request : Type := {
  f_url : string;
  f_method : string;
  f_headers : list (string * string);
  f_body : option value       (* the argument of JSON.stringify, if any *)
}.

(** A resolved [fetch]: the three-digit status of the HTTP response and
    what [response.json()] gives, [None] when parsing throws. *)
Record response : Type := {
  status : Z;
  json_body : option value
}.

Inductive fetch_result : Type :=
| FetchThrows
| FetchResolves (r : response).

(** [response.ok] *)
Definition ok (r : response) : bool := (200 <=? status r) && (status r <=? 299).

Inductive reply : Type :=
| Send (code : Z) (payload : value)       (* reply.status(code).send(payload) *)
| Redirect (location : string).           (* reply.redirect(location) *)

(** [process.env] *)
Record environment : Type := {
  CLIENT_ID : value;
  CLIENT_SECRET : value;
  REDIRECT_URI : value
}.

(** The module variable and the log of the calls made upstream. *)
Record world : Type := {
  storedToken : value;
  calls : list fetch_request
}.

(** The state before any request: [let storedToken = null]. *)
Definition initial : world := {| storedToken := VNull; calls := [] |}.

(** *** Code inside a [try] block: it reads and writes the world and may throw *)

Definition Try (A : Type) : Type := world -> world * option A.

Definition ret {A : Type} (a : A) : Try A := fun w => (w, Some a).

Definition throw {A : Type} : Try A := fun w => (w, None).

Definition bind {A B : Type} (m : Try A) (k : A -> Try B) : Try B :=
  fun w =>
    match m w with
    | (w', Some a) => k a w'
    | (w', None) => (w', None)
    end.

Notation "x <- m ;; k" := (bind m (fun x => k))
  (at level 61, m at next level, right associativity).

Definition lift {A : Type} (o : option A) : Try A :=
  match o with
  | Some a => ret a
  | None => throw
  end.

Definition read_token : Try value := fun w => (w, Some (storedToken w)).

Definition write_token (t : value) : Try unit :=
  fun w => ({| storedToken := t; calls := calls w |}, Some tt).

Definition handler : Type := world -> world * reply.

(** [try { body } catch (error) { reply.status(500).send(...) }] *)
Definition try_catch (body : Try reply) (on_error : reply) : handler :=
  fun w =>
    match body w with
    | (w', Some r) => (w', r)
    | (w', None) => (w', on_error)
    end.

Definition error_body (msg : string) : value := VObj [("error", VStr msg)].

Definition no_token : reply := Send 401 (error_body "No token stored yet").

Definition api_headers (token : value) : list (string * string) :=
  [("Authorization", "Bearer " ++ to_string token);
   ("Content-Type", "application/json")].

Section Handlers.

Variable env : environment.
Variable upstream : fetch_request -> fetch_result.

(** [await fetch(...)]: the call is logged, then resolves or throws. *)
Definition fetch (u : fetch_request) : Try response :=
  fun w =>
    let w' := {| storedToken := storedToken w; calls := calls w ++ [u] |} in
    match upstream u with
    | FetchThrows => (w', None)
    | FetchResolves r => (w', Some r)
    end.

(** [await response.json()] *)
Definition json (r : response) : Try value := lift (json_body r).

(** GET /auth *)
Definition auth (req : request) : handler :=
  fun w =>
    let authorizeUrl :=
      "https://auth.calendly.com/oauth/authorize?response_type=code&client_id="
        ++ to_string (CLIENT_ID env) ++ "&redirect_uri=" ++ to_string (REDIRECT_URI env) in
    (w, Redirect authorizeUrl).

(** GET /callback *)
Definition callback (req : request) : handler :=
  let code := get (req_query req) "code" in
  try_catch
    (response <- fetch {| f_url := "https://auth.calendly.com/oauth/token";
                          f_method := "POST";
                          f_headers := [("Content-Type", "application/json")];
                          f_body := Some (VObj [("grant_type", VStr "authorization_code");
                                                ("client_id", CLIENT_ID env);
                                                ("client_secret", CLIENT_SECRET env);
                                                ("code", code);
                                                ("redirect_uri", REDIRECT_URI env)]) |} ;;
     data <- json response ;;
     access_token <- lift (get_prop data "access_token") ;;
     _ <- write_token access_token ;;
     ret (Redirect "/dashboard.html"))
    (Send 500 (error_body "Token exchange failed")).

(** GET /me *)
Definition me (req : request) : handler :=
  let token := get (req_query req) "token" in
  try_catch
    (response <- fetch {| f_url := "https://api.calendly.com/users/me";
                          f_method := "GET";
                          f_headers := api_headers token;
                          f_body := None |} ;;
     data <- json response ;;
     ret (Send 200 data))
    (Send 500 (error_body "Failed to fetch user info")).

(** GET /me-from-store *)
Definition me_from_store (req : request) : handler :=
  fun w =>
    if negb (truthy (storedToken w)) then (w, no_token) else
    try_catch
      (token <- read_token ;;
       response <- fetch {| f_url := "https://api.calendly.com/users/me";
                            f_method := "GET";
                            f_headers := api_headers token;
                            f_body := None |} ;;
       data <- json response ;;
       ret (Send 200 data))
      (Send 500 (error_body "Failed to fetch user info")) w.

(** GET /locations *)
Definition locations (req : request) : handler :=
  fun w =>
    if negb (truthy (storedToken w)) then (w, no_token) else
    let user := get (req_query req) "user" in
    if negb (truthy user) then (w, Send 400 (error_body "Missing user URI")) else
    try_catch
      (token <- read_token ;;
       response <- fetch {| f_url := "https://api.calendly.com/locations?user="
                                       ++ encodeURIComponent (to_string user);
                            f_method := "GET";
                            f_headers := api_headers token;
                            f_body := None |} ;;
       data <- json response ;;
       ret (Send 200 data))
      (Send 500 (error_body "Failed to fetch locations")) w.

(** POST /create-event-type *)
Definition create_event_type (req : request) : handler :=
  fun w =>
    if negb (truthy (storedToken w)) then (w, no_token) else
    try_catch
      (token <- read_token ;;
       active <- lift (get_prop (req_body req) "active") ;;
       response <- fetch {| f_url := "https://api.calendly.com/event_types";
                            f_method := "POST";
                            f_headers := api_headers token;
                            f_body := Some (VObj
                              (set_prop "active"
                                 (VBool (strict_equals active (VBool true)
                                         || strict_equals active (VStr "true")))
                                 (own_props (req_body req)))) |} ;;
       data <- json response ;;
       if negb (ok response) then ret (Send (status response) data) else
       ret (Send 200 data))
      (Send 500 (error_body "Failed to create event type")) w.

(** GET /list-event-types *)
Definition list_event_types (req : request) : handler :=
  fun w =>
    if negb (truthy (storedToken w)) then (w, no_token) else
    let query := URLSearchParams_toString (URLSearchParams (req_query req)) in
    try_catch
      (token <- read_token ;;
       response <- fetch {| f_url := "https://api.calendly.com/event_types?" ++ query;
                            f_method := "GET";
                            f_headers := api_headers token;
                            f_body := None |} ;;
       data <- json response ;;
       ret (Send 200 data))
      (Send 500 (error_body "Failed to list event types")) w.

(** PATCH /update-event-type/:uuid *)
Definition update_event_type (req : request) : handler :=
  fun w =>
    if negb (truthy (storedToken w)) then (w, no_token) else
    try_catch
      (token <- read_token ;;
       response <- fetch {| f_url := "https://api.calendly.com/event_types/"
                                       ++ to_string (get (req_params req) "uuid");
                            f_method := "PATCH";
                            f_headers := api_headers token;
                            f_body := Some (req_body req) |} ;;
       data <- json response ;;
       if negb (ok response) then ret (Send (status response) data) else
       ret (Send 200 data))
      (Send 500 (error_body "Failed to update event type")) w.

(** PATCH /update-event-availability *)
Definition update_event_availability (req : request) : handler :=
  fun w =>
    if negb (truthy (storedToken w)) then (w, no_token) else
    try_catch
      (token <- read_token ;;
       response <- fetch {| f_url := "https://api.calendly.com/event_type_availability_schedules";
                            f_method := "PATCH";
                            f_headers := api_headers token;
                            f_body := Some (req_body req) |} ;;
       data <- json response ;;
       if negb (ok response) then ret (Send (status response) data) else
       ret (Send 200 data))
      (Send 500 (error_body "Failed to update availability")) w.

(** The routes of the OAuth and event-type part of the server. *)
Inductive route : Type :=
| GET_auth
| GET_callback
| GET_me
| GET_me_from_store
| GET_locations
| POST_create_event_type
| GET_list_event_types
| PATCH_update_event_type
| PATCH_update_event_availability.

Definition serve (r : route) : request -> handler :=
  match r with
  | GET_auth => auth
  | GET_callback => callback
  | GET_me => me
  | GET_me_from_store => me_from_store
  | GET_locations => locations
  | POST_create_event_type => create_event_type
  | GET_list_event_types => list_event_types
  | PATCH_update_event_type => update_event_type
  | PATCH_update_event_availability => update_event_availability
  end.

End Handlers.

(** *** Vocabulary of the properties *)

(** The routes that start with [if (!storedToken) return reply.status(401)...]. *)
Definition needs_token (r : route) : bool :=
  match r with
  | GET_me_from_store | GET_locations | POST_create_event_type
  | GET_list_event_types | PATCH_update_event_type
  | PATCH_update_event_availability => true
  | GET_auth | GET_callback | GET_me => false
  end.

(** The routes that only read upstream. *)
Definition read_only (r : route) : bool :=
  match r with
  | GET_me | GET_me_from_store | GET_locations | GET_list_event_types => true
  | _ => false
  end.

(** The routes that create or update upstream. *)
Definition creates_or_updates (r : route) : bool :=
  match r with
  | POST_create_event_type | PATCH_update_event_type
  | PATCH_update_event_availability => true
  | _ => false
  end.

(** The HTTP status of a reply; Fastify redirects with 302. *)
Definition reply_status (r : reply) : Z :=
  match r with
  | Send code _ => code
  | Redirect _ => 302
  end.

Fixpoint header (name : string) (hs : list (string * string)) : option string :=
  match hs with
  | [] => None
  | (n, v) :: rest => if String.eqb n name then Some v else header name rest
  end.

(** A request as the server meets it: the route, what the handler reads of
    it, and how the network answers while it is served. *)
Record exchange : Type := {
  x_route : route;
  x_request : request;
  x_upstream : fetch_request -> fetch_result
}.

(** The server handling requests one after the other. *)
Fixpoint run (env : environment) (xs : list exchange) (w : world) : world :=
  match xs with
  | [] => w
  | x :: rest => run env rest (fst (serve env (x_upstream x) (x_route x) (x_request x) w))
  end.

(** The call that GET /callback makes to the token endpoint. *)
Definition exchange_call (env : environment) (req : request) : fetch_request :=
  {| f_url := "https://auth.calendly.com/oauth/token";
     f_method := "POST";
     f_headers := [("Content-Type", "application/json")];
     f_body := Some (VObj [("grant_type", VStr "authorization_code");
                           ("client_id", CLIENT_ID env);
                           ("client_secret", CLIENT_SECRET env);
                           ("code", get (req_query req) "code");
                           ("redirect_uri", REDIRECT_URI env)]) |}.

(** The name=value parameters of the inbound query string, read back from
    [req.query]: Fastify's query parser gives a name that occurs once its
    string, and a name that occurs several times the array of its strings. *)
Definition query_parameters (q : object) : list (string * string) :=
  flat_map (fun kv =>
              match snd kv with
              | VArr elems => map (fun e => (fst kv, to_string e)) elems
              | v => [(fst kv, to_string v)]
              end) q.

Definition is_string (v : value) : bool :=
  match v with
  | VStr _ => true
  | _ => false
  end.

(** How the receiving end reads a query string (the
    application/x-www-form-urlencoded parser): cut at [&], cut each
    non-empty piece at its first [=], turn [+] into a space and decode the
    percent escapes. *)
Fixpoint split_on (sep : ascii) (s : string) : list string :=
  match s with
  | EmptyString => [EmptyString]
  | String c rest =>
      if Ascii.eqb c sep then EmptyString :: split_on sep rest
      else match split_on sep rest with
           | [] => [String c EmptyString]
           | piece :: pieces => String c piece :: pieces
           end
  end.

Fixpoint break_at (sep : ascii) (s : string) : string * string :=
  match s with
  | EmptyString => (EmptyString, EmptyString)
  | String c rest =>
      if Ascii.eqb c sep then (EmptyString, rest)
      else (String c (fst (break_at sep rest)), snd (break_at sep rest))
  end.

Definition hex_value (c : ascii) : option N :=
  let n := N_of_ascii c in
  if ((48 <=? n) && (n <=? 57))%N then Some (n - 48)%N
  else if ((65 <=? n) && (n <=? 70))%N then Some (n - 55)%N
  else if ((97 <=? n) && (n <=? 102))%N then Some (n - 87)%N
  else None.

Fixpoint plus_to_space (s : string) : string :=
  match s with
  | EmptyString => EmptyString
  | String c rest => String (if Ascii.eqb c "+" then " "%char else c) (plus_to_space rest)
  end.

Fixpoint percent_decode (s : string) : string :=
  match s with
  | EmptyString => EmptyString
  | String c rest =>
      if Ascii.eqb c "%" then
        match rest with
        | String h (String l rest') =>
            match hex_value h, hex_value l with
            | Some x, Some y => String (ascii_of_N (16 * x + y)) (percent_decode rest')
            | _, _ => String c (percent_decode rest)
            end
        | _ => String c (percent_decode rest)
        end
      else String c (percent_decode rest)
  end.

Definition urldecode (s : string) : string := percent_decode (plus_to_space s).

Definition nonempty (s : string) : bool :=
  match s with
  | EmptyString => false
  | String _ _ => true
  end.

Definition urlencoded_parse (s : string) : list (string * string) :=
  map (fun piece => (urldecode (fst (break_at "=" piece)),
                     urldecode (snd (break_at "=" piece))))
      (filter nonempty (split_on "&" s)).

(** The exchanges on GET /me, the one forwarding route that brings its
    own token. *)
Definition on_me (x : exchange) : bool :=
  match x_route x with
  | GET_me => true
  | _ => false
  end.

(** The statuses a route answers with of its own accord, in the order of
    its [reply] statements. *)
Definition own_statuses (r : route) : list Z :=
  match r with
  | GET_auth => [302]
  | GET_callback => [302; 500]
  | GET_me => [200; 500]
  | GET_me_from_store | GET_list_event_types => [401; 200; 500]
  | GET_locations => [401; 400; 200; 500]
  | POST_create_event_type | PATCH_update_event_type
  | PATCH_update_event_availability => [401; 200; 500]
  end.

(** Whether a handler gets as far as its [fetch]: it has passed its token
    check, /locations has a [user], and /create-event-type could read
    [req.body.active].  /auth has no [fetch]. *)
Definition reaches_upstream (r : route) (req : request) (w : world) : bool :=
  match r with
  | GET_auth => false
  | GET_callback | GET_me => true
  | GET_me_from_store | GET_list_event_types
  | PATCH_update_event_type | PATCH_update_event_availability =>
      truthy (storedToken w)
  | GET_locations => truthy (storedToken w) && truthy (get (req_query req) "user")
  | POST_create_event_type =>
      truthy (storedToken w)
      && match get_prop (req_body req) "active" with
         | Some _ => true
         | None => false
         end
  end.

(** The URL each handler hands to [fetch]. *)
Definition upstream_url (r : route) (req : request) : option string :=
  match r with
  | GET_auth => None
  | GET_callback => Some "https://auth.calendly.com/oauth/token"
  | GET_me | GET_me_from_store => Some "https://api.calendly.com/users/me"
  | GET_locations =>
      Some ("https://api.calendly.com/locations?user="
              ++ encodeURIComponent (to_string (get (req_query req) "user")))
  | POST_create_event_type => Some "https://api.calendly.com/event_types"
  | GET_list_event_types =>
      Some ("https://api.calendly.com/event_types?"
              ++ URLSearchParams_toString (URLSearchParams (req_query req)))
  | PATCH_update_event_type =>
      Some ("https://api.calendly.com/event_types/"
              ++ to_string (get (req_params req) "uuid"))
  | PATCH_update_event_availability =>
      Some "https://api.calendly.com/event_type_availability_schedules"
  end.

(** *** Sample data for the examples *)

Definition sample_env : environment :=
  {| CLIENT_ID := VStr "client-id";
     CLIENT_SECRET := VStr "client-secret";
     REDIRECT_URI := VStr "https://relay.example/callback" |}.

Definition empty_request : request :=
  {| req_query := []; req_params := []; req_body := VUndefined |}.

Definition logged_in (t : string) : world :=
  {| storedToken := VStr t; calls := [] |}.

Definition offline : fetch_request -> fetch_result := fun _ => FetchThrows.

Definition answering (code : Z) (doc : value) : fetch_request -> fetch_result :=
  fun _ => FetchResolves {| status := code; json_body := Some doc |}.

(** ** Properties *)

Implicit Types (env : environment) (up : fetch_request -> fetch_result).
Implicit Types (w : world) (req : request).

(** *** The built-ins on sample inputs *)

Example truthy_samples :
  map truthy [VNull; VUndefined; VStr ""; VNum 0; VBool false; VStr "tok"; VObj []]
  = [false; false; false; false; false; true; true].
Proof. reflexivity. Qed.

Example to_string_samples :
  map to_string [VUndefined; VStr "abc"; VNum (-15); VArr [VStr "5"; VNull; VStr "10"]]
  = ["undefined"; "abc"; "-15"; "5,,10"].
Proof. reflexivity. Qed.

Example spread_samples :
  own_props (VStr "ok") = [("0", VStr "o"); ("1", VStr "k")]
  /\ set_prop "active" (VBool false) [("name", VStr "n")]
     = [("name", VStr "n"); ("active", VBool false)]
  /\ set_prop "active" (VBool true) [("active", VStr "true"); ("name", VStr "n")]
     = [("active", VBool true); ("name", VStr "n")].
Proof. repeat split. Qed.

Example encodeURIComponent_sample :
  encodeURIComponent "https://api.calendly.com/users/AB C"
  = "https%3A%2F%2Fapi.calendly.com%2Fusers%2FAB%20C".
Proof. reflexivity. Qed.

Example URLSearchParams_sample :
  URLSearchParams_toString
    (URLSearchParams [("count", VStr "5"); ("sort", VStr "name:asc"); ("q", VStr "a b&c")])
  = "count=5&sort=name%3Aasc&q=a+b%26c".
Proof. reflexivity. Qed.

Example urlencoded_parse_sample :
  urlencoded_parse "count=5&q=a+b%26c&&flag" = [("count", "5"); ("q", "a b&c"); ("flag", "")].
Proof. reflexivity. Qed.

Example locations_sample :
  locations (answering 200 (VObj [("collection", VArr [])]))
    {| req_query := [("user", VStr "https://api.calendly.com/users/U1")];
       req_params := []; req_body := VUndefined |}
    (logged_in "tok")
  = ({| storedToken := VStr "tok";
        calls := [ {| f_url := "https://api.calendly.com/locations?user="
                                 ++ "https%3A%2F%2Fapi.calendly.com%2Fusers%2FU1";
                      f_method := "GET";
                      f_headers := [("Authorization", "Bearer tok");
                                    ("Content-Type", "application/json")];
                      f_body := None |} ] |},
     Send 200 (VObj [("collection", VArr [])])).
Proof. reflexivity. Qed.

(** A missing body makes [req.body.active] throw inside the [try] block:
    nothing is sent upstream and the reply is 500. *)
Example create_event_type_without_body :
  create_event_type (answering 201 (VObj [])) empty_request (logged_in "tok")
  = (logged_in "tok", Send 500 (VObj [("error", VStr "Failed to create event type")])).
Proof. reflexivity. Qed.

(** A handler that passes the token check runs its [try] block. *)
Ltac pass_token_check H :=
  cbv beta delta [serve me_from_store locations create_event_type list_event_types
                  update_event_type update_event_availability] iota;
  rewrite H; cbn [negb].

Ltac run_try :=
  cbv beta delta [try_catch bind read_token write_token fetch json lift ret throw] iota;
  cbn [storedToken calls fst snd].

(** Two logs that extend the same log by one call hold the same call. *)
Lemma last_call_inj (l : list fetch_request) (u v : fetch_request) :
  (l ++ [u] = l ++ [v])%list -> u = v.
Proof.
  intros H. apply app_inv_head in H. now injection H.
Qed.

(** C2. On each of the six routes that require the stored token, when the
    stored token is absent (falsy: [null] before any login) the reply is
    401 with [{error: "No token stored yet"}], and the world, with its log of
    upstream calls, is as before: nothing was sent upstream. *)
Theorem no_token_is_401 env up (r : route) req w :
  needs_token r = true ->
  truthy (storedToken w) = false ->
  serve env up r req w = (w, Send 401 (VObj [("error", VStr "No token stored yet")])).
Proof.
  intros Hr Hw.
  destruct r; try discriminate Hr; pass_token_check Hw; reflexivity.
Qed.

Lemma no_token_is_401_witness :
  serve sample_env offline GET_list_event_types empty_request initial
  = (initial, Send 401 (VObj [("error", VStr "No token stored yet")])).
Proof.
  apply (no_token_is_401 sample_env offline GET_list_event_types empty_request initial);
    reflexivity.
Defined.

(** Case analysis on every test the handler makes, innermost first. *)
Ltac split_cases :=
  repeat (match goal with
          | |- context [match ?x with _ => _ end] =>
              lazymatch x with
              | context [match _ with _ => _ end] => fail
              | _ => destruct x eqn:?
              end
          end; cbn [storedToken calls fst snd negb]).

(** No route but /callback assigns [storedToken]. *)
Lemma forwarding_keeps_token env up (r : route) req w :
  r <> GET_callback ->
  storedToken (fst (serve env up r req w)) = storedToken w.
Proof.
  intros Hr.
  destruct r; try congruence;
    cbv beta delta [serve auth me me_from_store locations create_event_type
                    list_event_types update_event_type update_event_availability] iota;
    run_try; split_cases; reflexivity.
Qed.

Lemma log_grows (l : list fetch_request) (u : fetch_request) :
  l <> (l ++ [u])%list.
Proof.
  intros H. apply (f_equal (@length _)) in H.
  rewrite length_app in H. cbn in H. lia.
Qed.

(** What one upstream call means for a handler: the log grew by the call
    [u], which the network answered with [resp], whose JSON parsed to
    [data]. *)
Ltac unfold_handlers :=
  cbv beta delta [serve auth callback me me_from_store locations create_event_type
                  list_event_types update_event_type update_event_availability] iota.

Lemma route_eq_callback (r : route) : r = GET_callback \/ r <> GET_callback.
Proof. destruct r; (now left) || (right; discriminate). Qed.

(** What a forwarding handler does once it is past its guards: it makes one
    call, to its URL, and its reply is read off the outcome of that call. *)
Lemma forwarding_outcome env up (r : route) req w :
  r <> GET_callback ->
  reaches_upstream r req w = true ->
  exists u msg,
    calls (fst (serve env up r req w)) = (calls w ++ [u])%list
    /\ upstream_url r req = Some (f_url u)
    /\ snd (serve env up r req w)
       = match up u with
         | FetchThrows => Send 500 (error_body msg)
         | FetchResolves resp =>
             match json_body resp with
             | None => Send 500 (error_body msg)
             | Some data =>
                 if creates_or_updates r && negb (ok resp)
                 then Send (status resp) data
                 else Send 200 data
             end
         end.
Proof.
  intros Hr Hreach.
  destruct r; try congruence; try discriminate Hreach;
    cbn [reaches_upstream] in Hreach;
    try (apply andb_true_iff in Hreach as [Hreach Hmore]);
    unfold_handlers; try rewrite Hreach; cbn [negb]; cbv zeta;
    try rewrite Hmore; cbn [negb]; run_try.
  all: try (destruct (get_prop (req_body req) "active") as [a|];
            [ | discriminate Hmore ]; cbn [fst snd storedToken calls]).
  all: eexists; eexists; split;
       [ destruct (up _) as [|resp0]; cbn [fst snd storedToken calls]; [reflexivity|];
         destruct (json_body resp0); cbn [fst snd storedToken calls]; [|reflexivity];
         try (destruct (ok resp0)); reflexivity
       | split; [reflexivity|] ].
  all: cbn [creates_or_updates andb].
  all: destruct (up _) as [|resp0]; cbn [fst snd storedToken calls]; [reflexivity|];
       destruct (json_body resp0); cbn [fst snd storedToken calls]; [|reflexivity];
       try (destruct (ok resp0)); reflexivity.
Qed.

(** C10. Each of the four read-only routes, once past its guards (a token
    stored where the route needs one, a [user] on /locations), makes one
    upstream call, to its URL; and whenever that call comes back with a body
    that parses as JSON, the reply is that body with status 200, whatever
    the upstream status was. *)
Theorem read_only_reply_is_200 env up (r : route) req w :
  read_only r = true ->
  reaches_upstream r req w = true ->
  exists u,
    calls (fst (serve env up r req w)) = (calls w ++ [u])%list
    /\ upstream_url r req = Some (f_url u)
    /\ (forall resp data,
          up u = FetchResolves resp ->
          json_body resp = Some data ->
          snd (serve env up r req w) = Send 200 data).
Proof.
  intros Hr Hreach.
  destruct (forwarding_outcome env up r req w) as (u & msg & Hlog & Hurl & Hreply);
    [destruct r; discriminate | assumption |].
  exists u. split; [exact Hlog|]. split; [exact Hurl|].
  intros resp data Hup Hjson. rewrite Hreply, Hup, Hjson.
  destruct r; try discriminate Hr; reflexivity.
Qed.

Lemma read_only_reply_is_200_witness :
  exists u,
    calls (fst (serve sample_env (answering 404 (VObj [("title", VStr "Not Found")]))
                  GET_locations
                  {| req_query := [("user", VStr "U1")]; req_params := [];
                     req_body := VUndefined |}
                  (logged_in "tok"))) = [u]
    /\ f_url u = "https://api.calendly.com/locations?user=U1"
    /\ snd (serve sample_env (answering 404 (VObj [("title", VStr "Not Found")]))
              GET_locations
              {| req_query := [("user", VStr "U1")]; req_params := [];
                 req_body := VUndefined |}
              (logged_in "tok"))
       = Send 200 (VObj [("title", VStr "Not Found")]).
Proof.
  destruct (read_only_reply_is_200 sample_env
              (answering 404 (VObj [("title", VStr "Not Found")]))
              GET_locations
              {| req_query := [("user", VStr "U1")]; req_params := [];
                 req_body := VUndefined |}
              (logged_in "tok") eq_refl eq_refl)
    as (u & Hlog & Hurl & Hreply).
  exists u. split; [exact Hlog|]. split.
  - cbn in Hurl. now injection Hurl as <-.
  - apply (Hreply {| status := 404;
                     json_body := Some (VObj [("title", VStr "Not Found")]) |});
      reflexivity.
Defined.

(** C4. Each of the three create/update routes, once past its guards (a
    token stored, and on /create-event-type a body whose [active] can be
    read), makes one upstream call, to its URL; and whenever that call comes
    back with a failure status (not [ok]) and a body that parses as JSON, the
    reply carries that very status and that very body. *)
Theorem upstream_failure_is_relayed env up (r : route) req w :
  creates_or_updates r = true ->
  reaches_upstream r req w = true ->
  exists u,
    calls (fst (serve env up r req w)) = (calls w ++ [u])%list
    /\ upstream_url r req = Some (f_url u)
    /\ (forall resp data,
          up u = FetchResolves resp ->
          json_body resp = Some data ->
          ok resp = false ->
          snd (serve env up r req w) = Send (status resp) data).
Proof.
  intros Hr Hreach.
  destruct (forwarding_outcome env up r req w) as (u & msg & Hlog & Hurl & Hreply);
    [destruct r; discriminate | assumption |].
  exists u. split; [exact Hlog|]. split; [exact Hurl|].
  intros resp data Hup Hjson Hok. rewrite Hreply, Hup, Hjson, Hr, Hok. reflexivity.
Qed.

Lemma upstream_failure_is_relayed_witness :
  exists u,
    calls (fst (serve sample_env
                  (answering 422 (VObj [("message", VStr "Invalid Argument")]))
                  PATCH_update_event_type
                  {| req_query := []; req_params := [("uuid", VStr "ET1")];
                     req_body := VObj [("duration", VNum 0)] |}
                  (logged_in "tok"))) = [u]
    /\ f_url u = "https://api.calendly.com/event_types/ET1"
    /\ snd (serve sample_env
              (answering 422 (VObj [("message", VStr "Invalid Argument")]))
              PATCH_update_event_type
              {| req_query := []; req_params := [("uuid", VStr "ET1")];
                 req_body := VObj [("duration", VNum 0)] |}
              (logged_in "tok"))
       = Send 422 (VObj [("message", VStr "Invalid Argument")]).
Proof.
  destruct (upstream_failure_is_relayed sample_env
              (answering 422 (VObj [("message", VStr "Invalid Argument")]))
              PATCH_update_event_type
              {| req_query := []; req_params := [("uuid", VStr "ET1")];
                 req_body := VObj [("duration", VNum 0)] |}
              (logged_in "tok") eq_refl eq_refl)
    as (u & Hlog & Hurl & Hreply).
  exists u. split; [exact Hlog|]. split.
  - cbn in Hurl. now injection Hurl as <-.
  - apply (Hreply {| status := 422;
                     json_body := Some (VObj [("message", VStr "Invalid Argument")]) |});
      reflexivity.
Defined.

(** *** GET /callback *)

Lemma callback_log env up req w :
  calls (fst (callback env up req w)) = (calls w ++ [exchange_call env req])%list.
Proof.
  unfold callback. run_try. fold (exchange_call env req).
  destruct (up (exchange_call env req)) as [|resp]; cbn [fst snd storedToken calls];
    [reflexivity|].
  destruct (json_body resp) as [data|]; cbn [fst snd storedToken calls]; [|reflexivity].
  destruct (get_prop data "access_token"); reflexivity.
Qed.

Lemma callback_success env up req w resp data t :
  up (exchange_call env req) = FetchResolves resp ->
  json_body resp = Some data ->
  get_prop data "access_token" = Some t ->
  callback env up req w
  = ({| storedToken := t; calls := calls w ++ [exchange_call env req] |},
     Redirect "/dashboard.html").
Proof.
  intros Hup Hjson Htok.
  unfold callback. run_try. fold (exchange_call env req).
  rewrite Hup; cbn [fst snd storedToken calls].
  rewrite Hjson; cbn [fst snd storedToken calls].
  rewrite Htok. reflexivity.
Qed.

Lemma callback_failure env up req w :
  up (exchange_call env req) = FetchThrows
  \/ (exists resp, up (exchange_call env req) = FetchResolves resp /\ json_body resp = None) ->
  callback env up req w
  = ({| storedToken := storedToken w; calls := calls w ++ [exchange_call env req] |},
     Send 500 (error_body "Token exchange failed")).
Proof.
  intros [Hup | (resp & Hup & Hjson)];
    unfold callback; run_try; fold (exchange_call env req);
    rewrite Hup; cbn [fst snd storedToken calls]; [reflexivity|].
  rewrite Hjson. reflexivity.
Qed.

(** C5. GET /callback makes one call, to the token endpoint.  If the call
    resolves and its JSON document yields an access token, that token is
    stored and the reply redirects to the dashboard page.  If the call
    throws, or parsing its body throws, the reply is 500 with
    [{error: "Token exchange failed"}] and the stored token is as before. *)
Theorem callback_outcome env up req w :
  calls (fst (callback env up req w)) = (calls w ++ [exchange_call env req])%list
  /\ (forall resp data t,
        up (exchange_call env req) = FetchResolves resp ->
        json_body resp = Some data ->
        get_prop data "access_token" = Some t ->
        storedToken (fst (callback env up req w)) = t
        /\ snd (callback env up req w) = Redirect "/dashboard.html")
  /\ (up (exchange_call env req) = FetchThrows
      \/ (exists resp, up (exchange_call env req) = FetchResolves resp
                       /\ json_body resp = None) ->
      storedToken (fst (callback env up req w)) = storedToken w
      /\ snd (callback env up req w)
         = Send 500 (VObj [("error", VStr "Token exchange failed")])).
Proof.
  split; [apply callback_log|]. split.
  - intros resp data t Hup Hjson Htok.
    rewrite (callback_success env up req w resp data t Hup Hjson Htok). now split.
  - intros Hfail. rewrite (callback_failure env up req w Hfail). now split.
Qed.

Lemma callback_outcome_witness :
  (storedToken (fst (callback sample_env
                       (answering 200 (VObj [("access_token", VStr "tok-2")]))
                       {| req_query := [("code", VStr "c0de")]; req_params := [];
                          req_body := VUndefined |}
                       (logged_in "tok-1"))) = VStr "tok-2"
   /\ snd (callback sample_env
             (answering 200 (VObj [("access_token", VStr "tok-2")]))
             {| req_query := [("code", VStr "c0de")]; req_params := [];
                req_body := VUndefined |}
             (logged_in "tok-1")) = Redirect "/dashboard.html")
  /\ (storedToken (fst (callback sample_env offline empty_request (logged_in "tok-1")))
      = VStr "tok-1"
      /\ snd (callback sample_env offline empty_request (logged_in "tok-1"))
         = Send 500 (VObj [("error", VStr "Token exchange failed")])).
Proof.
  split.
  - apply (proj1 (proj2 (callback_outcome sample_env
                           (answering 200 (VObj [("access_token", VStr "tok-2")]))
                           {| req_query := [("code", VStr "c0de")]; req_params := [];
                              req_body := VUndefined |}
                           (logged_in "tok-1")))
             {| status := 200; json_body := Some (VObj [("access_token", VStr "tok-2")]) |}
             (VObj [("access_token", VStr "tok-2")]) (VStr "tok-2"));
      reflexivity.
  - apply (proj2 (proj2 (callback_outcome sample_env offline empty_request
                           (logged_in "tok-1")))).
    left. reflexivity.
Defined.

(** *** The stored token across requests *)

Lemma run_keeps_token env (xs : list exchange) w :
  Forall (fun x => x_route x <> GET_callback) xs ->
  storedToken (run env xs w) = storedToken w.
Proof.
  intros Hxs. revert w.
  induction Hxs as [|x xs Hx _ IH]; intros w; cbn [run]; [reflexivity|].
  rewrite IH. now apply forwarding_keeps_token.
Qed.

(** C8. The world holds one token.  Whatever sequence of requests to routes
    other than /callback is served, and however the network answers them,
    the stored token is afterwards what it was before; a /callback whose
    exchange yields the token [t] then replaces it by [t]. *)
Theorem token_written_only_by_callback env (xs : list exchange) w :
  Forall (fun x => x_route x <> GET_callback) xs ->
  storedToken (run env xs w) = storedToken w
  /\ (forall up req resp data t,
        up (exchange_call env req) = FetchResolves resp ->
        json_body resp = Some data ->
        get_prop data "access_token" = Some t ->
        storedToken (fst (serve env up GET_callback req (run env xs w))) = t).
Proof.
  intros Hxs. split; [now apply run_keeps_token|].
  intros up req resp data t Hup Hjson Htok. cbn [serve].
  now rewrite (callback_success env up req _ resp data t Hup Hjson Htok).
Qed.

Lemma token_written_only_by_callback_witness :
  storedToken
    (run sample_env
       [ {| x_route := POST_create_event_type;
            x_request := {| req_query := []; req_params := [];
                            req_body := VObj [("name", VStr "Intro call")] |};
            x_upstream := answering 201 (VObj [("resource", VObj [])]) |};
         {| x_route := GET_me; x_request := empty_request; x_upstream := offline |};
         {| x_route := PATCH_update_event_availability; x_request := empty_request;
            x_upstream := answering 400 (VObj [("title", VStr "Invalid Argument")]) |} ]
       (logged_in "tok-1"))
  = VStr "tok-1".
Proof.
  apply (token_written_only_by_callback sample_env
           [ {| x_route := POST_create_event_type;
                x_request := {| req_query := []; req_params := [];
                                req_body := VObj [("name", VStr "Intro call")] |};
                x_upstream := answering 201 (VObj [("resource", VObj [])]) |};
             {| x_route := GET_me; x_request := empty_request; x_upstream := offline |};
             {| x_route := PATCH_update_event_availability; x_request := empty_request;
                x_upstream := answering 400 (VObj [("title", VStr "Invalid Argument")]) |} ]
           (logged_in "tok-1")).
  repeat constructor; discriminate.
Defined.

(** Every call logged by a route that requires the stored token carries
    that token. *)
Lemma token_routes_send_stored_token env up (r : route) req w u :
  needs_token r = true ->
  In u (calls (fst (serve env up r req w))) ->
  In u (calls w)
  \/ header "Authorization" (f_headers u) = Some ("Bearer " ++ to_string (storedToken w)).
Proof.
  intros Hr. destruct r; try discriminate Hr; unfold_handlers.
  all: destruct (truthy (storedToken w)); cbn [negb fst snd]; [ | now left ].
  all: try (destruct (truthy (get (req_query req) "user")); cbn [negb fst snd];
            [ | now left ]).
  all: run_try.
  all: try (destruct (get_prop (req_body req) "active"); cbn [fst snd storedToken calls];
            [ | now left ]).
  all: match goal with
       | |- context [match ?f ?u0 with FetchThrows => _ | FetchResolves _ => _ end] =>
           destruct (f u0) as [|resp0]
       end; cbn [fst snd storedToken calls].
  all: try (destruct (json_body resp0); cbn [fst snd storedToken calls]).
  all: try (destruct (ok resp0); cbn [negb fst snd storedToken calls]).
  all: intros Hin; apply in_app_or in Hin; destruct Hin as [Hin|[<-|[]]];
       [now left | right; reflexivity].
Qed.

Lemma me_from_store_call up req w :
  truthy (storedToken w) = true ->
  exists u,
    calls (fst (me_from_store up req w)) = (calls w ++ [u])%list
    /\ f_url u = "https://api.calendly.com/users/me"
    /\ header "Authorization" (f_headers u)
       = Some ("Bearer " ++ to_string (storedToken w)).
Proof.
  intros Hw. unfold me_from_store. rewrite Hw; cbn [negb]. run_try.
  eexists. split.
  { destruct (up _) as [|resp0]; cbn [fst snd storedToken calls]; [reflexivity|].
    destruct (json_body resp0); reflexivity. }
  split; reflexivity.
Qed.

(** A route that needs the stored token, once past its guards, sends it. *)
Lemma token_routes_call_with_stored_token env up (r : route) req w :
  needs_token r = true ->
  reaches_upstream r req w = true ->
  exists u,
    calls (fst (serve env up r req w)) = (calls w ++ [u])%list
    /\ upstream_url r req = Some (f_url u)
    /\ header "Authorization" (f_headers u)
       = Some ("Bearer " ++ to_string (storedToken w)).
Proof.
  intros Hr Hreach.
  destruct r; try discriminate Hr;
    cbn [reaches_upstream] in Hreach;
    try (apply andb_true_iff in Hreach as [Hreach Hmore]);
    unfold_handlers; rewrite Hreach; cbn [negb]; cbv zeta;
    try rewrite Hmore; cbn [negb]; run_try.
  all: try (destruct (get_prop (req_body req) "active") as [a|];
            [ | discriminate Hmore ]; cbn [fst snd storedToken calls]).
  all: eexists; split;
       [ destruct (up _) as [|resp0]; cbn [fst snd storedToken calls]; [reflexivity|];
         destruct (json_body resp0); cbn [fst snd storedToken calls]; [|reflexivity];
         try (destruct (ok resp0)); reflexivity
       | split; reflexivity ].
Qed.

(** C6, as the code has it.  After a token exchange that yields the
    non-empty string [t] as access token, the stored token is exactly [t],
    also after any number of requests to the other routes.  From then on
    every call sent upstream by a route that uses the stored token carries
    [Authorization: Bearer t], and each of these routes, once past its
    guards, does send such a call; /me-from-store always does. *)
Theorem bearer_token_round_trip env up0 req0 w0 resp data (t : string)
    (xs : list exchange) :
  up0 (exchange_call env req0) = FetchResolves resp ->
  json_body resp = Some data ->
  get_prop data "access_token" = Some (VStr t) ->
  t <> "" ->
  Forall (fun x => x_route x <> GET_callback) xs ->
  let w1 := run env xs (fst (callback env up0 req0 w0)) in
  storedToken w1 = VStr t
  /\ (forall up (r : route) req u,
        needs_token r = true ->
        In u (calls (fst (serve env up r req w1))) ->
        In u (calls w1)
        \/ header "Authorization" (f_headers u) = Some ("Bearer " ++ t))
  /\ (forall up (r : route) req,
        needs_token r = true ->
        reaches_upstream r req w1 = true ->
        exists u,
          calls (fst (serve env up r req w1)) = (calls w1 ++ [u])%list
          /\ upstream_url r req = Some (f_url u)
          /\ header "Authorization" (f_headers u) = Some ("Bearer " ++ t))
  /\ (forall up req, exists u,
        calls (fst (me_from_store up req w1)) = (calls w1 ++ [u])%list
        /\ f_url u = "https://api.calendly.com/users/me"
        /\ header "Authorization" (f_headers u) = Some ("Bearer " ++ t)).
Proof.
  intros Hup Hjson Htok Ht Hxs w1.
  assert (Hw1 : storedToken w1 = VStr t).
  { unfold w1. rewrite run_keeps_token by assumption.
    now rewrite (callback_success env up0 req0 w0 resp data (VStr t) Hup Hjson Htok). }
  assert (Htruthy : truthy (storedToken w1) = true).
  { rewrite Hw1. cbn [truthy]. apply negb_true_iff. now apply String.eqb_neq. }
  change ("Bearer " ++ t) with ("Bearer " ++ to_string (VStr t)). rewrite <- Hw1.
  split; [reflexivity|]. split; [|split].
  - intros up r req u Hr Hin.
    now apply (token_routes_send_stored_token env up r req w1 u).
  - intros up r req Hr Hreach.
    now apply token_routes_call_with_stored_token.
  - intros up req. now apply me_from_store_call.
Qed.

Lemma bearer_token_round_trip_witness :
  let w1 :=
    run sample_env
      [ {| x_route := GET_list_event_types; x_request := empty_request;
           x_upstream := offline |} ]
      (fst (callback sample_env (answering 200 (VObj [("access_token", VStr "tok-9")]))
              empty_request initial)) in
  storedToken w1 = VStr "tok-9"
  /\ exists u,
       calls (fst (me_from_store (answering 200 (VObj [])) empty_request w1))
       = (calls w1 ++ [u])%list
       /\ f_url u = "https://api.calendly.com/users/me"
       /\ header "Authorization" (f_headers u) = Some "Bearer tok-9".
Proof.
  intros w1.
  assert (Hne : "tok-9" <> "") by discriminate.
  assert (H := bearer_token_round_trip sample_env
                 (answering 200 (VObj [("access_token", VStr "tok-9")]))
                 empty_request initial
                 {| status := 200; json_body := Some (VObj [("access_token", VStr "tok-9")]) |}
                 (VObj [("access_token", VStr "tok-9")]) "tok-9"
                 [ {| x_route := GET_list_event_types; x_request := empty_request;
                      x_upstream := offline |} ]
                 eq_refl eq_refl eq_refl Hne).
  assert (Hxs : Forall (fun x => x_route x <> GET_callback)
                  [ {| x_route := GET_list_event_types; x_request := empty_request;
                       x_upstream := offline |} ])
    by (repeat constructor; discriminate).
  specialize (H Hxs).
  split.
  - exact (proj1 H).
  - exact (proj2 (proj2 (proj2 H)) (answering 200 (VObj [])) empty_request).
Defined.

(** C6, as stated, fails on /me, which forwards the token named in its
    query and not the stored one: after a login that stored ["tok-9"],
    [GET /me?token=someone-else] sends [Authorization: Bearer someone-else]. *)
Lemma me_sends_its_own_token :
  ~ (forall env up0 req0 w0 resp data (t : string),
       up0 (exchange_call env req0) = FetchResolves resp ->
       json_body resp = Some data ->
       get_prop data "access_token" = Some (VStr t) ->
       t <> "" ->
       forall up (r : route) req u,
         r <> GET_auth -> r <> GET_callback ->
         calls (fst (serve env up r req (fst (callback env up0 req0 w0))))
         = (calls (fst (callback env up0 req0 w0)) ++ [u])%list ->
         header "Authorization" (f_headers u) = Some ("Bearer " ++ t)).
Proof.
  intros H.
  assert (Hne : "tok-9" <> "") by discriminate.
  specialize (H sample_env (answering 200 (VObj [("access_token", VStr "tok-9")]))
                empty_request initial
                {| status := 200;
                   json_body := Some (VObj [("access_token", VStr "tok-9")]) |}
                (VObj [("access_token", VStr "tok-9")]) "tok-9"
                eq_refl eq_refl eq_refl Hne
                offline GET_me
                {| req_query := [("token", VStr "someone-else")]; req_params := [];
                   req_body := VUndefined |}
                {| f_url := "https://api.calendly.com/users/me"; f_method := "GET";
                   f_headers := [("Authorization", "Bearer someone-else");
                                 ("Content-Type", "application/json")];
                   f_body := None |}).
  assert (Ha : GET_me <> GET_auth) by discriminate.
  assert (Hc : GET_me <> GET_callback) by discriminate.
  specialize (H Ha Hc eq_refl). cbn in H. discriminate H.
Qed.

(** *** GET /me *)

(** C9. GET /me never looks at the stored token: whatever the world and the
    request, it sends one call upstream whose Authorization header is
    [Bearer] followed by the [token] query parameter as a string, which reads
    [Bearer undefined] when the parameter is absent; its reply is 200 or 500,
    never 401. *)
Theorem me_forwards_given_token up req w :
  exists u,
    calls (fst (me up req w)) = (calls w ++ [u])%list
    /\ f_url u = "https://api.calendly.com/users/me"
    /\ header "Authorization" (f_headers u)
       = Some match lookup "token" (req_query req) with
              | Some v => "Bearer " ++ to_string v
              | None => "Bearer undefined"
              end
    /\ (reply_status (snd (me up req w)) = 200 \/ reply_status (snd (me up req w)) = 500)
    /\ reply_status (snd (me up req w)) <> 401.
Proof.
  unfold me. run_try. eexists. split.
  { destruct (up _) as [|resp0]; cbn [fst snd storedToken calls]; [reflexivity|].
    destruct (json_body resp0); reflexivity. }
  split; [reflexivity|]. split.
  { cbn [f_headers api_headers header String.eqb Ascii.eqb Bool.eqb]. unfold get.
    destruct (lookup "token" (req_query req)); reflexivity. }
  destruct (up _) as [|resp0]; cbn [fst snd storedToken calls reply_status];
    [split; [now right | discriminate]|].
  destruct (json_body resp0); cbn [fst snd reply_status];
    (split; [auto | discriminate]).
Qed.

(** *** GET /locations *)

(** C1, as the code has it.  A GET /locations whose query has no [user]
    parameter is answered 400 with [{error: "Missing user URI"}] when a token
    is stored, and 401 with [{error: "No token stored yet"}] when none is: the
    token check comes first.  Either way nothing is sent upstream. *)
Theorem locations_without_user up req w :
  lookup "user" (req_query req) = None ->
  locations up req w
  = (w, if truthy (storedToken w)
        then Send 400 (VObj [("error", VStr "Missing user URI")])
        else Send 401 (VObj [("error", VStr "No token stored yet")])).
Proof.
  intros Huser. unfold locations, get. rewrite Huser.
  destruct (truthy (storedToken w)); reflexivity.
Qed.

Lemma locations_without_user_witness :
  locations offline empty_request (logged_in "tok")
  = (logged_in "tok", Send 400 (VObj [("error", VStr "Missing user URI")])).
Proof.
  apply (locations_without_user offline empty_request (logged_in "tok")). reflexivity.
Defined.

(** C1, as stated, fails: before any login ([storedToken] is [null]), a
    GET /locations without [user] is answered 401, not 400. *)
Lemma locations_token_check_comes_first :
  ~ (forall up req w,
       lookup "user" (req_query req) = None ->
       reply_status (snd (locations up req w)) = 400).
Proof.
  intros H. specialize (H offline empty_request initial eq_refl).
  cbn in H. discriminate H.
Qed.

(** *** POST /create-event-type *)

Lemma lookup_set_prop_same (k : string) (v : value) (o : object) :
  lookup k (set_prop k v o) = Some v.
Proof.
  induction o as [|[k' v'] o IH]; cbn [set_prop lookup].
  - now rewrite String.eqb_refl.
  - destruct (String.eqb k' k) eqn:E; cbn [lookup].
    + now rewrite String.eqb_refl.
    + now rewrite E.
Qed.

Lemma lookup_set_prop_other (k j : string) (v : value) (o : object) :
  j <> k -> lookup j (set_prop k v o) = lookup j o.
Proof.
  intros Hj. induction o as [|[k' v'] o IH]; cbn [set_prop lookup].
  - destruct (String.eqb_spec k j); [congruence | reflexivity].
  - destruct (String.eqb_spec k' k) as [->|Hk]; cbn [lookup].
    + destruct (String.eqb_spec k j); [congruence | reflexivity].
    + now rewrite IH.
Qed.

Lemma keys_set_prop_present (k : string) (v : value) (o : object) :
  In k (map fst o) -> map fst (set_prop k v o) = map fst o.
Proof.
  induction o as [|[k' v'] o IH]; cbn [set_prop map fst In]; [tauto|].
  intros Hin. destruct (String.eqb_spec k' k) as [->|Hk]; cbn [map fst]; [reflexivity|].
  f_equal. apply IH. destruct Hin; [contradiction | assumption].
Qed.

Lemma keys_set_prop_absent (k : string) (v : value) (o : object) :
  ~ In k (map fst o) -> map fst (set_prop k v o) = (map fst o ++ [k])%list.
Proof.
  induction o as [|[k' v'] o IH]; cbn [set_prop map fst In app]; [reflexivity|].
  intros Hin. destruct (String.eqb_spec k' k) as [->|Hk]; cbn [map fst]; [tauto|].
  f_equal. apply IH. tauto.
Qed.

Lemma strict_equals_true (a : value) :
  strict_equals a (VBool true) = true <-> a = VBool true.
Proof.
  destruct a as [| |[|]| | | |]; cbn; split; congruence.
Qed.

Lemma strict_equals_string (a : value) (s : string) :
  strict_equals a (VStr s) = true <-> a = VStr s.
Proof.
  destruct a; cbn; split; try congruence.
  - intros E. apply String.eqb_eq in E. now subst.
  - intros [= ->]. apply String.eqb_refl.
Qed.

(** C3. With a token stored and a request body [b] whose [active] property
    reads [a], POST /create-event-type sends one POST upstream whose body is
    an object [fwd] such that: [fwd.active] is a boolean, true exactly when
    [a] is the boolean [true] or the string ["true"]; every other property of
    [fwd] is the property of [b]; and the property names of [fwd] are those
    of [b] in their order, with [active] added last if [b] had none. *)
Theorem create_event_type_coerces_active up req w a :
  truthy (storedToken w) = true ->
  get_prop (req_body req) "active" = Some a ->
  exists u fwd,
    calls (fst (create_event_type up req w)) = (calls w ++ [u])%list
    /\ f_url u = "https://api.calendly.com/event_types"
    /\ f_method u = "POST"
    /\ f_body u = Some (VObj fwd)
    /\ (exists b : bool,
          lookup "active" fwd = Some (VBool b)
          /\ (b = true <-> a = VBool true \/ a = VStr "true"))
    /\ (forall k, k <> "active" -> lookup k fwd = lookup k (own_props (req_body req)))
    /\ (In "active" (map fst (own_props (req_body req))) ->
        map fst fwd = map fst (own_props (req_body req)))
    /\ (~ In "active" (map fst (own_props (req_body req))) ->
        map fst fwd = (map fst (own_props (req_body req)) ++ ["active"])%list).
Proof.
  intros Hw Ha. unfold create_event_type. rewrite Hw; cbn [negb]. run_try.
  rewrite Ha; cbn [fst snd storedToken calls].
  eexists. eexists. split.
  { destruct (up _) as [|resp0]; cbn [fst snd storedToken calls]; [reflexivity|].
    destruct (json_body resp0); cbn [fst snd storedToken calls]; [|reflexivity].
    destruct (ok resp0); reflexivity. }
  cbn [f_url f_method f_body].
  repeat (split; [reflexivity|]). split; [|split; [|split]].
  - eexists. split; [apply lookup_set_prop_same|].
    rewrite orb_true_iff, strict_equals_true, strict_equals_string. reflexivity.
  - intros k Hk. now apply lookup_set_prop_other.
  - apply keys_set_prop_present.
  - apply keys_set_prop_absent.
Qed.

Lemma create_event_type_coerces_active_witness :
  exists u fwd,
    calls (fst (create_event_type (answering 201 (VObj []))
                  {| req_query := []; req_params := [];
                     req_body := VObj [("name", VStr "Intro call");
                                       ("active", VStr "true");
                                       ("duration", VNum 30)] |}
                  (logged_in "tok"))) = [u]
    /\ f_body u = Some (VObj fwd)
    /\ lookup "active" fwd = Some (VBool true)
    /\ lookup "name" fwd = Some (VStr "Intro call")
    /\ lookup "duration" fwd = Some (VNum 30)
    /\ map fst fwd = ["name"; "active"; "duration"].
Proof.
  destruct (create_event_type_coerces_active (answering 201 (VObj []))
              {| req_query := []; req_params := [];
                 req_body := VObj [("name", VStr "Intro call");
                                   ("active", VStr "true");
                                   ("duration", VNum 30)] |}
              (logged_in "tok") (VStr "true") eq_refl eq_refl)
    as (u & fwd & Hlog & _ & _ & Hbody & (b & Hactive & Hb) & Hrest & Hkeys & _).
  exists u, fwd. split; [exact Hlog|]. split; [exact Hbody|]. split.
  - rewrite Hactive. f_equal. f_equal. apply Hb. now right.
  - split; [apply Hrest; discriminate|].
    split; [apply Hrest; discriminate|].
    apply Hkeys. cbn. tauto.
Defined.

(** *** GET /list-event-types: the query string round trip *)

Lemma mem_ascii_app (c : ascii) (a b : string) :
  mem_ascii c (a ++ b) = mem_ascii c a || mem_ascii c b.
Proof.
  induction a as [|d a IH]; cbn [append mem_ascii]; [reflexivity|].
  now rewrite IH, orb_assoc.
Qed.

Ltac each_byte c :=
  destruct c as [[|] [|] [|] [|] [|] [|] [|] [|]].

(** What [urlencode] writes for one byte holds neither [&] nor [=]. *)
Lemma urlencode_byte_clean (d : ascii) :
  mem_ascii "&" (urlencode (String d EmptyString)) = false
  /\ mem_ascii "=" (urlencode (String d EmptyString)) = false.
Proof.
  each_byte d; split; vm_compute; reflexivity.
Qed.

Lemma urlencode_cons (d : ascii) (s : string) :
  urlencode (String d s) = urlencode (String d EmptyString) ++ urlencode s.
Proof.
  cbn [urlencode].
  destruct (is_alnum d || mem_ascii d "*-._"); [reflexivity|].
  destruct (Ascii.eqb d " "); [reflexivity|].
  unfold percent_encode. cbn [append]. reflexivity.
Qed.

Lemma urlencode_clean (s : string) :
  mem_ascii "&" (urlencode s) = false /\ mem_ascii "=" (urlencode s) = false.
Proof.
  induction s as [|d s [IHa IHe]]; [now split|].
  rewrite urlencode_cons, !mem_ascii_app, IHa, IHe.
  destruct (urlencode_byte_clean d) as [-> ->]. now split.
Qed.

(** Decoding gives back the byte that was encoded. *)
Lemma urldecode_byte (d : ascii) (rest : string) :
  urldecode (urlencode (String d EmptyString) ++ rest) = String d (urldecode rest).
Proof.
  unfold urldecode. each_byte d; reflexivity.
Qed.

Lemma urldecode_urlencode (s : string) : urldecode (urlencode s) = s.
Proof.
  induction s as [|d s IH]; [reflexivity|].
  now rewrite urlencode_cons, urldecode_byte, IH.
Qed.

Lemma split_on_clean (sep : ascii) (a : string) :
  mem_ascii sep a = false -> split_on sep a = [a].
Proof.
  induction a as [|c a IH]; cbn [mem_ascii split_on]; [reflexivity|].
  intros H. apply orb_false_iff in H as [Hc Ha].
  rewrite Ascii.eqb_sym, Hc, (IH Ha). reflexivity.
Qed.

Lemma split_on_first (sep : ascii) (a b : string) :
  mem_ascii sep a = false ->
  split_on sep (a ++ String sep b) = a :: split_on sep b.
Proof.
  induction a as [|c a IH]; cbn [mem_ascii split_on append].
  - intros _. now rewrite Ascii.eqb_refl.
  - intros H. apply orb_false_iff in H as [Hc Ha].
    rewrite Ascii.eqb_sym, Hc, (IH Ha). reflexivity.
Qed.

Lemma break_at_first (sep : ascii) (a b : string) :
  mem_ascii sep a = false ->
  break_at sep (a ++ String sep b) = (a, b).
Proof.
  induction a as [|c a IH]; cbn [mem_ascii break_at append].
  - intros _. now rewrite Ascii.eqb_refl.
  - intros H. apply orb_false_iff in H as [Hc Ha].
    rewrite Ascii.eqb_sym, Hc, (IH Ha). reflexivity.
Qed.

Lemma concat_cons (c : ascii) (x y : string) (l : list string) :
  String.concat (String c EmptyString) (x :: y :: l)
  = x ++ String c (String.concat (String c EmptyString) (y :: l)).
Proof. reflexivity. Qed.

(** One serialized pair, [name=value]. *)
Lemma pair_clean (k v : string) :
  mem_ascii "&" (urlencode k ++ "=" ++ urlencode v) = false.
Proof.
  rewrite !mem_ascii_app.
  destruct (urlencode_clean k) as [-> _], (urlencode_clean v) as [-> _]. reflexivity.
Qed.

Lemma pair_nonempty (k v : string) :
  nonempty (urlencode k ++ "=" ++ urlencode v) = true.
Proof.
  destruct (urlencode k); reflexivity.
Qed.

Lemma pair_read_back (k v : string) :
  (urldecode (fst (break_at "=" (urlencode k ++ "=" ++ urlencode v))),
   urldecode (snd (break_at "=" (urlencode k ++ "=" ++ urlencode v)))) = (k, v).
Proof.
  cbn [append]. rewrite break_at_first by apply urlencode_clean.
  cbn [fst snd]. now rewrite !urldecode_urlencode.
Qed.

(** Parsing what [URLSearchParams.prototype.toString] wrote gives back the
    pairs, names and values byte for byte, in their order. *)
Lemma urlencoded_parse_toString (ps : list (string * string)) :
  urlencoded_parse (URLSearchParams_toString ps) = ps.
Proof.
  unfold urlencoded_parse, URLSearchParams_toString.
  induction ps as [|[k v] ps IH]; [reflexivity|].
  destruct ps as [|p ps]; cbn [map fst snd] in *.
  - cbn [String.concat].
    rewrite split_on_clean by apply pair_clean.
    cbn [filter]. rewrite pair_nonempty. cbn [map]. now rewrite pair_read_back.
  - rewrite concat_cons.
    rewrite split_on_first by apply pair_clean.
    cbn [filter]. rewrite pair_nonempty. cbn [map].
    rewrite pair_read_back. f_equal. exact IH.
Qed.

(** A query object whose values are all strings stands for one parameter
    per property. *)
Lemma URLSearchParams_of_strings (q : object) :
  Forall (fun kv => is_string (snd kv) = true) q ->
  URLSearchParams q = query_parameters q.
Proof.
  induction 1 as [|[k v] q Hv _ IH]; [reflexivity|].
  unfold URLSearchParams, query_parameters in *. cbn [map flat_map fst snd] in *.
  rewrite IH. destruct v; try discriminate Hv. reflexivity.
Qed.

(** C7, as the code has it.  With a token stored and a query in which no
    parameter is repeated (every value of [req.query] is a string),
    GET /list-event-types sends one call to the event_types endpoint whose
    query string is the form-urlencoded serialization of the inbound
    parameters and reads back as exactly those parameters. *)
Theorem list_event_types_forwards_query up req w :
  truthy (storedToken w) = true ->
  Forall (fun kv => is_string (snd kv) = true) (req_query req) ->
  exists u qs,
    calls (fst (list_event_types up req w)) = (calls w ++ [u])%list
    /\ f_url u = "https://api.calendly.com/event_types?" ++ qs
    /\ qs = URLSearchParams_toString (query_parameters (req_query req))
    /\ urlencoded_parse qs = query_parameters (req_query req).
Proof.
  intros Hw Hq. unfold list_event_types. rewrite Hw; cbn [negb]. run_try.
  eexists. eexists. split.
  { destruct (up _) as [|resp0]; cbn [fst snd storedToken calls]; [reflexivity|].
    destruct (json_body resp0); reflexivity. }
  cbn [f_url]. split; [reflexivity|].
  rewrite (URLSearchParams_of_strings _ Hq). split; [reflexivity|].
  apply urlencoded_parse_toString.
Qed.

Lemma list_event_types_forwards_query_witness :
  exists u,
    calls (fst (list_event_types (answering 200 (VObj []))
                  {| req_query := [("count", VStr "5"); ("page_token", VStr "abc")];
                     req_params := []; req_body := VUndefined |}
                  (logged_in "tok"))) = [u]
    /\ f_url u = "https://api.calendly.com/event_types?count=5&page_token=abc".
Proof.
  destruct (list_event_types_forwards_query (answering 200 (VObj []))
              {| req_query := [("count", VStr "5"); ("page_token", VStr "abc")];
                 req_params := []; req_body := VUndefined |}
              (logged_in "tok") eq_refl)
    as (u & qs & Hlog & Hurl & Hqs & _).
  - repeat constructor.
  - exists u. split; [exact Hlog|]. rewrite Hurl, Hqs. reflexivity.
Defined.

(** C7, as stated, fails on a repeated parameter.  For
    [?count=5&count=10] the handler receives [req.query.count] as the array
    of both values and sends [count=5%2C10] upstream: one parameter whose
    value is ["5,10"], where the inbound request had two. *)
Lemma list_event_types_repeated_parameter :
  ~ (forall up req w,
       truthy (storedToken w) = true ->
       exists u qs,
         calls (fst (list_event_types up req w)) = (calls w ++ [u])%list
         /\ f_url u = "https://api.calendly.com/event_types?" ++ qs
         /\ urlencoded_parse qs = query_parameters (req_query req)).
Proof.
  intros H.
  destruct (H offline
              {| req_query := [("count", VArr [VStr "5"; VStr "10"])];
                 req_params := []; req_body := VUndefined |}
              (logged_in "tok") eq_refl)
    as (u & qs & Hlog & Hurl & Hparse).
  vm_compute in Hlog. injection Hlog as <-.
  vm_compute in Hurl. injection Hurl as <-.
  vm_compute in Hparse. discriminate Hparse.
Qed.

(** ** Further properties of the handlers *)

(** *** The log of upstream calls *)

Lemma serve_one_call env up (r : route) req w :
  exists l,
    calls (fst (serve env up r req w)) = (calls w ++ l)%list /\ (length l <= 1)%nat.
Proof.
  destruct r; unfold_handlers; run_try; split_cases;
    first [ exists []; split; [now rewrite app_nil_r | cbn; lia]
          | eexists [_]; split; [reflexivity | cbn; lia] ].
Qed.

(** X1. No retries: serving any sequence of requests only appends to the
    log of upstream calls, and appends at most one call per request. *)
Theorem run_appends_at_most_one_call_each env (xs : list exchange) w :
  exists l,
    calls (run env xs w) = (calls w ++ l)%list /\ (length l <= length xs)%nat.
Proof.
  revert w. induction xs as [|x xs IH]; intros w; cbn [run].
  - exists []. split; [now rewrite app_nil_r | cbn; lia].
  - destruct (serve_one_call env (x_upstream x) (x_route x) (x_request x) w)
      as (l1 & Hl1 & Hn1).
    destruct (IH (fst (serve env (x_upstream x) (x_route x) (x_request x) w)))
      as (l2 & Hl2 & Hn2).
    exists (l1 ++ l2)%list. split.
    + now rewrite Hl2, Hl1, app_assoc.
    + rewrite length_app. cbn [length]. lia.
Qed.

(** *** Replies *)

(** X2. Transport and parse failures: every handler that gets past its
    guards makes one upstream call; and on every route, when the call the
    handler made throws, or its body does not parse as JSON, the reply is
    500 with an [{error: ...}] body and the stored token is as before. *)
Theorem transport_failure_is_500 env up (r : route) req w :
  (reaches_upstream r req w = true ->
   exists u, calls (fst (serve env up r req w)) = (calls w ++ [u])%list)
  /\ (forall u,
        calls (fst (serve env up r req w)) = (calls w ++ [u])%list ->
        up u = FetchThrows
        \/ (exists resp, up u = FetchResolves resp /\ json_body resp = None) ->
        (exists msg, snd (serve env up r req w) = Send 500 (VObj [("error", VStr msg)]))
        /\ storedToken (fst (serve env up r req w)) = storedToken w).
Proof.
  split.
  - intros Hreach. destruct (route_eq_callback r) as [->|Hr].
    + eexists. apply callback_log.
    + destruct (forwarding_outcome env up r req w Hr Hreach) as (u & _ & Hlog & _).
      now exists u.
  - intros u. destruct r; unfold_handlers; run_try; split_cases; intros Hlog Hfail;
      try (now apply log_grows in Hlog);
      apply last_call_inj in Hlog; subst u;
      try (destruct Hfail as [Hfail | (resp & Hfail & Hjson)]; congruence);
      (split; [eexists; reflexivity | reflexivity]).
Qed.

Lemma transport_failure_is_500_witness :
  (exists u,
     calls (fst (serve sample_env offline PATCH_update_event_availability empty_request
                   (logged_in "tok"))) = [u])
  /\ (exists msg,
        snd (serve sample_env offline PATCH_update_event_availability empty_request
               (logged_in "tok"))
        = Send 500 (VObj [("error", VStr msg)]))
  /\ storedToken (fst (serve sample_env offline PATCH_update_event_availability
                         empty_request (logged_in "tok"))) = VStr "tok".
Proof.
  split.
  - apply (proj1 (transport_failure_is_500 sample_env offline
                    PATCH_update_event_availability empty_request (logged_in "tok"))).
    reflexivity.
  - apply (proj2 (transport_failure_is_500 sample_env offline
                    PATCH_update_event_availability empty_request (logged_in "tok"))
             {| f_url := "https://api.calendly.com/event_type_availability_schedules";
                f_method := "PATCH";
                f_headers := [("Authorization", "Bearer tok");
                              ("Content-Type", "application/json")];
                f_body := Some VUndefined |}).
    + reflexivity.
    + left. reflexivity.
Defined.

(** X3. Each create/update route, once past its guards, makes one upstream
    call, to its URL, and answers an upstream success with status 200 and
    the upstream body: the upstream success code (201 on a creation, for
    one) is not passed on. *)
Theorem upstream_success_is_200 env up (r : route) req w :
  creates_or_updates r = true ->
  reaches_upstream r req w = true ->
  exists u,
    calls (fst (serve env up r req w)) = (calls w ++ [u])%list
    /\ upstream_url r req = Some (f_url u)
    /\ (forall resp data,
          up u = FetchResolves resp ->
          json_body resp = Some data ->
          ok resp = true ->
          snd (serve env up r req w) = Send 200 data).
Proof.
  intros Hr Hreach.
  destruct (forwarding_outcome env up r req w) as (u & msg & Hlog & Hurl & Hreply);
    [destruct r; discriminate | assumption |].
  exists u. split; [exact Hlog|]. split; [exact Hurl|].
  intros resp data Hup Hjson Hok. rewrite Hreply, Hup, Hjson, Hr, Hok. reflexivity.
Qed.

Lemma upstream_success_is_200_witness :
  exists u,
    calls (fst (serve sample_env (answering 201 (VObj [("resource", VObj [])]))
                  PATCH_update_event_availability
                  {| req_query := []; req_params := [];
                     req_body := VObj [("rules", VArr [])] |}
                  (logged_in "tok"))) = [u]
    /\ f_url u = "https://api.calendly.com/event_type_availability_schedules"
    /\ snd (serve sample_env (answering 201 (VObj [("resource", VObj [])]))
              PATCH_update_event_availability
              {| req_query := []; req_params := [];
                 req_body := VObj [("rules", VArr [])] |}
              (logged_in "tok"))
       = Send 200 (VObj [("resource", VObj [])]).
Proof.
  destruct (upstream_success_is_200 sample_env
              (answering 201 (VObj [("resource", VObj [])]))
              PATCH_update_event_availability
              {| req_query := []; req_params := [];
                 req_body := VObj [("rules", VArr [])] |}
              (logged_in "tok") eq_refl eq_refl)
    as (u & Hlog & Hurl & Hreply).
  exists u. split; [exact Hlog|]. split.
  - cbn in Hurl. now injection Hurl as <-.
  - apply (Hreply {| status := 201; json_body := Some (VObj [("resource", VObj [])]) |});
      reflexivity.
Defined.

Ltac flip_negb :=
  repeat match goal with
         | H : negb _ = true |- _ => apply negb_true_iff in H
         | H : negb _ = false |- _ => apply negb_false_iff in H
         end.

(** X4. The status of a reply is one the route sets itself (302 on the two
    OAuth routes, 401, 400 on /locations only, 200, 500), or, on the
    create/update routes only, the failure status of the upstream response
    to the call just made. *)
Theorem reply_status_range env up (r : route) req w :
  In (reply_status (snd (serve env up r req w))) (own_statuses r)
  \/ (creates_or_updates r = true
      /\ exists u resp,
           calls (fst (serve env up r req w)) = (calls w ++ [u])%list
           /\ up u = FetchResolves resp
           /\ ok resp = false
           /\ reply_status (snd (serve env up r req w)) = status resp).
Proof.
  destruct r; unfold_handlers; run_try; split_cases; flip_negb;
    cbn [reply_status own_statuses In];
    first [ left; tauto
          | right; split; [reflexivity|];
            eexists; eexists; split; [reflexivity|]; split; [eassumption|];
            split; [assumption | reflexivity] ].
Qed.

(** X5. On the read-only routes that use the stored token, a 401 always
    means that no token is stored: with a token stored they answer 200 or
    500 (400 on /locations), even when upstream itself said 401. *)
Theorem read_only_401_means_no_token env up (r : route) req w :
  read_only r = true ->
  needs_token r = true ->
  reply_status (snd (serve env up r req w)) = 401 <-> truthy (storedToken w) = false.
Proof.
  intros Hr Hn. destruct r; try discriminate Hr; try discriminate Hn;
    unfold_handlers; run_try; split_cases; flip_negb;
    cbn [reply_status no_token]; split; congruence.
Qed.

Lemma read_only_401_means_no_token_witness :
  reply_status (snd (serve sample_env (answering 401 (VObj [("title", VStr "Unauthenticated")]))
                       GET_me_from_store empty_request (logged_in "expired"))) <> 401.
Proof.
  intros H.
  apply (read_only_401_means_no_token sample_env
           (answering 401 (VObj [("title", VStr "Unauthenticated")]))
           GET_me_from_store empty_request (logged_in "expired") eq_refl eq_refl) in H.
  discriminate H.
Defined.

(** *** GET /callback, further *)

(** X6. GET /callback does not look at the upstream status.  When the token
    endpoint answers with a JSON object that has no [access_token] (an OAuth
    error document, say), the handler stores [undefined] over whatever token
    was there and still redirects to the dashboard; from then on every route
    that needs the stored token answers 401. *)
Theorem callback_without_access_token env up req w resp (o : object) :
  up (exchange_call env req) = FetchResolves resp ->
  json_body resp = Some (VObj o) ->
  lookup "access_token" o = None ->
  storedToken (fst (callback env up req w)) = VUndefined
  /\ snd (callback env up req w) = Redirect "/dashboard.html"
  /\ (forall up' (r : route) req',
        needs_token r = true ->
        serve env up' r req' (fst (callback env up req w))
        = (fst (callback env up req w),
           Send 401 (VObj [("error", VStr "No token stored yet")]))).
Proof.
  intros Hup Hjson Hmiss.
  assert (Htok : get_prop (VObj o) "access_token" = Some VUndefined)
    by (cbn [get_prop]; unfold get; now rewrite Hmiss).
  rewrite (callback_success env up req w resp (VObj o) VUndefined Hup Hjson Htok).
  cbn [fst snd storedToken]. repeat split.
  intros up' r req' Hr.
  destruct r; try discriminate Hr; reflexivity.
Qed.

Lemma callback_without_access_token_witness :
  storedToken (fst (callback sample_env
                      (answering 400 (VObj [("error", VStr "invalid_grant")]))
                      empty_request (logged_in "tok-1"))) = VUndefined
  /\ snd (callback sample_env
            (answering 400 (VObj [("error", VStr "invalid_grant")]))
            empty_request (logged_in "tok-1")) = Redirect "/dashboard.html".
Proof.
  destruct (callback_without_access_token sample_env
              (answering 400 (VObj [("error", VStr "invalid_grant")]))
              empty_request (logged_in "tok-1")
              {| status := 400;
                 json_body := Some (VObj [("error", VStr "invalid_grant")]) |}
              [("error", VStr "invalid_grant")] eq_refl eq_refl eq_refl)
    as (Htok & Hreply & _).
  split; [exact Htok | exact Hreply].
Defined.

(** X7. GET /callback ends in one of two ways: it redirects to the
    dashboard, having stored what [access_token] read on the JSON document
    of the token endpoint; or it answers 500 with
    [{error: "Token exchange failed"}] and leaves the stored token as it
    was.  The second also covers a document that is JSON [null], on which
    reading [access_token] throws. *)
Theorem callback_redirects_or_keeps_token env up req w :
  (snd (callback env up req w) = Redirect "/dashboard.html"
   /\ exists resp data,
        up (exchange_call env req) = FetchResolves resp
        /\ json_body resp = Some data
        /\ get_prop data "access_token" = Some (storedToken (fst (callback env up req w))))
  \/ (snd (callback env up req w) = Send 500 (VObj [("error", VStr "Token exchange failed")])
      /\ storedToken (fst (callback env up req w)) = storedToken w
      /\ (up (exchange_call env req) = FetchThrows
          \/ exists resp,
               up (exchange_call env req) = FetchResolves resp
               /\ (json_body resp = None \/ json_body resp = Some VNull
                   \/ json_body resp = Some VUndefined))).
Proof.
  unfold callback. run_try. fold (exchange_call env req).
  destruct (up (exchange_call env req)) as [|resp] eqn:Hup;
    cbn [fst snd storedToken calls].
  { right. repeat split. now left. }
  destruct (json_body resp) as [data|] eqn:Hjson; cbn [fst snd storedToken calls].
  2:{ right. repeat split. right. exists resp. split; [reflexivity | now left]. }
  destruct (get_prop data "access_token") as [t|] eqn:Htok;
    cbn [fst snd storedToken calls].
  - left. split; [reflexivity|]. exists resp, data. now repeat split.
  - right. repeat split. right. exists resp. split; [reflexivity|].
    destruct data; try discriminate Htok; tauto.
Qed.

(** *** Where tokens and secrets go *)

(** X8. A bearer token is only ever sent to the Calendly API: every call a
    handler logs either carries an Authorization header and goes to a URL
    under [https://api.calendly.com/], or carries none and is the call to
    the token endpoint. *)
Theorem authorization_only_to_api env up (r : route) req w u :
  In u (calls (fst (serve env up r req w))) ->
  In u (calls w)
  \/ match header "Authorization" (f_headers u) with
     | Some _ => String.prefix "https://api.calendly.com/" (f_url u) = true
     | None => f_url u = "https://auth.calendly.com/oauth/token"
     end.
Proof.
  destruct r; unfold_handlers; run_try; split_cases; intros Hin;
    try (now left);
    apply in_app_or in Hin; destruct Hin as [Hin|[<-|[]]];
    try (now left); right; reflexivity.
Qed.

Lemma authorization_only_to_api_witness :
  String.prefix "https://api.calendly.com/"
    (f_url {| f_url := "https://api.calendly.com/event_types/../users/me";
              f_method := "PATCH";
              f_headers := [("Authorization", "Bearer tok");
                            ("Content-Type", "application/json")];
              f_body := Some VUndefined |}) = true.
Proof.
  destruct (authorization_only_to_api sample_env offline PATCH_update_event_type
              {| req_query := []; req_params := [("uuid", VStr "../users/me")];
                 req_body := VUndefined |}
              (logged_in "tok")
              {| f_url := "https://api.calendly.com/event_types/../users/me";
                 f_method := "PATCH";
                 f_headers := [("Authorization", "Bearer tok");
                               ("Content-Type", "application/json")];
                 f_body := Some VUndefined |}
              (or_introl eq_refl)) as [[]|H].
  exact H.
Defined.

(** X9. The client secret matters to /callback alone: two environments
    that agree on the client id and the redirect URI give, on every other
    route, the same reply and the same world, log of upstream calls
    included. *)
Theorem secret_only_reaches_callback env1 env2 up (r : route) req w :
  r <> GET_callback ->
  CLIENT_ID env1 = CLIENT_ID env2 ->
  REDIRECT_URI env1 = REDIRECT_URI env2 ->
  serve env1 up r req w = serve env2 up r req w.
Proof.
  intros Hr Hid Huri. destruct r; try congruence; cbn [serve]; try reflexivity.
  unfold auth. now rewrite Hid, Huri.
Qed.

Lemma secret_only_reaches_callback_witness :
  serve sample_env (answering 200 (VObj [])) GET_auth empty_request initial
  = serve {| CLIENT_ID := VStr "client-id"; CLIENT_SECRET := VUndefined;
             REDIRECT_URI := VStr "https://relay.example/callback" |}
          (answering 200 (VObj [])) GET_auth empty_request initial.
Proof.
  apply (secret_only_reaches_callback sample_env
           {| CLIENT_ID := VStr "client-id"; CLIENT_SECRET := VUndefined;
              REDIRECT_URI := VStr "https://relay.example/callback" |}
           (answering 200 (VObj [])) GET_auth empty_request initial);
    [discriminate | reflexivity | reflexivity].
Defined.

(** *** /me and /me-from-store *)

(** X10. With a token stored, /me-from-store does what /me does for a
    request that names the stored token in its [token] parameter: the same
    upstream call, the same reply, the same world. *)
Theorem me_from_store_is_me_with_stored_token up req req' w :
  truthy (storedToken w) = true ->
  lookup "token" (req_query req') = Some (storedToken w) ->
  me_from_store up req w = me up req' w.
Proof.
  intros Hw Htok. unfold me_from_store, me, get. rewrite Hw, Htok. reflexivity.
Qed.

Lemma me_from_store_is_me_with_stored_token_witness :
  me_from_store (answering 200 (VObj [("resource", VObj [])])) empty_request
    (logged_in "tok")
  = me (answering 200 (VObj [("resource", VObj [])]))
      {| req_query := [("token", VStr "tok")]; req_params := []; req_body := VUndefined |}
      (logged_in "tok").
Proof.
  apply (me_from_store_is_me_with_stored_token
           (answering 200 (VObj [("resource", VObj [])])) empty_request
           {| req_query := [("token", VStr "tok")]; req_params := [];
              req_body := VUndefined |}
           (logged_in "tok")); reflexivity.
Defined.

(** Without a stored token, a route other than /me and /callback leaves the
    world alone. *)
Lemma idle_without_token env up (r : route) req w :
  truthy (storedToken w) = false ->
  r <> GET_callback -> r <> GET_me ->
  fst (serve env up r req w) = w.
Proof.
  intros Hw Hc Hm. destruct r; try congruence; unfold_handlers; try reflexivity;
    rewrite Hw; reflexivity.
Qed.

(** X11. Before the first login nothing but /me reaches upstream: as long
    as no token is stored and no /callback is served, a sequence of requests
    leaves the world that its /me requests alone would leave. *)
Theorem only_me_calls_before_login env (xs : list exchange) w :
  truthy (storedToken w) = false ->
  Forall (fun x => x_route x <> GET_callback) xs ->
  run env xs w = run env (filter on_me xs) w.
Proof.
  intros Hw Hxs. revert w Hw.
  induction Hxs as [|x xs Hx _ IH]; intros w Hw; [reflexivity|].
  cbn [run filter]. unfold on_me at 1.
  destruct (x_route x) eqn:Hroute; try congruence; cbn [run];
    try (rewrite idle_without_token by (assumption || discriminate); now apply IH).
  rewrite Hroute. apply IH.
  now rewrite (forwarding_keeps_token env (x_upstream x) GET_me) by discriminate.
Qed.

Lemma only_me_calls_before_login_witness :
  calls (run sample_env
           [ {| x_route := GET_list_event_types; x_request := empty_request;
                x_upstream := answering 200 (VObj []) |};
             {| x_route := GET_me;
                x_request := {| req_query := [("token", VStr "t0")]; req_params := [];
                                req_body := VUndefined |};
                x_upstream := offline |};
             {| x_route := PATCH_update_event_availability; x_request := empty_request;
                x_upstream := answering 200 (VObj []) |} ]
           initial)
  = [ {| f_url := "https://api.calendly.com/users/me"; f_method := "GET";
         f_headers := [("Authorization", "Bearer t0");
                       ("Content-Type", "application/json")];
         f_body := None |} ].
Proof.
  rewrite (only_me_calls_before_login sample_env
             [ {| x_route := GET_list_event_types; x_request := empty_request;
                  x_upstream := answering 200 (VObj []) |};
               {| x_route := GET_me;
                  x_request := {| req_query := [("token", VStr "t0")]; req_params := [];
                                  req_body := VUndefined |};
                  x_upstream := offline |};
               {| x_route := PATCH_update_event_availability; x_request := empty_request;
                  x_upstream := answering 200 (VObj []) |} ]
             initial eq_refl).
  - reflexivity.
  - repeat constructor; discriminate.
Defined.

(** *** GET /locations, further *)

Lemma encodeURIComponent_cons (d : ascii) (s : string) :
  encodeURIComponent (String d s)
  = encodeURIComponent (String d EmptyString) ++ encodeURIComponent s.
Proof.
  cbn [encodeURIComponent].
  destruct (is_alnum d || mem_ascii d "-_.!~*'()"); [reflexivity|].
  unfold percent_encode. cbn [append]. reflexivity.
Qed.

(** What [encodeURIComponent] writes for one byte holds neither [&] nor
    [=], and reads back as that byte. *)
Lemma encodeURIComponent_byte (d : ascii) (rest : string) :
  mem_ascii "&" (encodeURIComponent (String d EmptyString)) = false
  /\ mem_ascii "=" (encodeURIComponent (String d EmptyString)) = false
  /\ urldecode (encodeURIComponent (String d EmptyString) ++ rest)
     = String d (urldecode rest).
Proof.
  unfold urldecode. each_byte d; repeat split.
Qed.

Lemma encodeURIComponent_clean (s : string) :
  mem_ascii "&" (encodeURIComponent s) = false.
Proof.
  induction s as [|d s IH]; [reflexivity|].
  rewrite encodeURIComponent_cons, mem_ascii_app, IH.
  now destruct (encodeURIComponent_byte d EmptyString) as (-> & _ & _).
Qed.

Lemma urldecode_encodeURIComponent (s : string) :
  urldecode (encodeURIComponent s) = s.
Proof.
  induction s as [|d s IH]; [reflexivity|].
  rewrite encodeURIComponent_cons.
  destruct (encodeURIComponent_byte d (encodeURIComponent s)) as (_ & _ & ->).
  now rewrite IH.
Qed.

(** X12. With a token stored and a [user] given, GET /locations sends one
    call whose query string reads back as the single parameter [user] with
    exactly the inbound value: whatever bytes the value holds ([&], [=], [+],
    [#], spaces), it cannot add or alter a parameter of the upstream call. *)
Theorem locations_sends_user_alone up req w :
  truthy (storedToken w) = true ->
  truthy (get (req_query req) "user") = true ->
  exists u qs,
    calls (fst (locations up req w)) = (calls w ++ [u])%list
    /\ f_url u = "https://api.calendly.com/locations?" ++ qs
    /\ urlencoded_parse qs = [("user", to_string (get (req_query req) "user"))].
Proof.
  intros Hw Huser. unfold locations. rewrite Hw; cbn [negb].
  rewrite Huser; cbn [negb]. run_try.
  set (user := to_string (get (req_query req) "user")).
  eexists. exists ("user=" ++ encodeURIComponent user). split.
  { destruct (up _) as [|resp0]; cbn [fst snd storedToken calls]; [reflexivity|].
    destruct (json_body resp0); reflexivity. }
  split; [reflexivity|].
  unfold urlencoded_parse.
  rewrite split_on_clean
    by (rewrite mem_ascii_app, encodeURIComponent_clean; reflexivity).
  cbn [filter nonempty append map].
  change (String "u" (String "s" (String "e" (String "r" (String "=" ?e)))))
    with ("user" ++ String "=" e).
  rewrite break_at_first by reflexivity. cbn [fst snd].
  now rewrite urldecode_encodeURIComponent.
Qed.

Lemma locations_sends_user_alone_witness :
  exists u qs,
    calls (fst (locations offline
                  {| req_query := [("user", VStr "U1&count=100#x y+z")];
                     req_params := []; req_body := VUndefined |}
                  (logged_in "tok"))) = [u]
    /\ f_url u = "https://api.calendly.com/locations?" ++ qs
    /\ urlencoded_parse qs = [("user", "U1&count=100#x y+z")].
Proof.
  apply (locations_sends_user_alone offline
           {| req_query := [("user", VStr "U1&count=100#x y+z")];
              req_params := []; req_body := VUndefined |}
           (logged_in "tok")); reflexivity.
Defined.

(** X13. With a token stored, GET /locations answers 400 exactly when
    [user] is missing or empty, and then sends nothing upstream; otherwise it
    makes one upstream call, to the locations URL with the encoded [user],
    and answers 200 or 500. *)
Theorem locations_400_iff_no_user up req w :
  truthy (storedToken w) = true ->
  (reply_status (snd (locations up req w)) = 400
   <-> truthy (get (req_query req) "user") = false)
  /\ (truthy (get (req_query req) "user") = false ->
      locations up req w = (w, Send 400 (VObj [("error", VStr "Missing user URI")])))
  /\ (truthy (get (req_query req) "user") = true ->
      exists u,
        calls (fst (locations up req w)) = (calls w ++ [u])%list
        /\ f_url u = "https://api.calendly.com/locations?user="
                       ++ encodeURIComponent (to_string (get (req_query req) "user"))
        /\ (reply_status (snd (locations up req w)) = 200
            \/ reply_status (snd (locations up req w)) = 500)).
Proof.
  intros Hw. unfold locations. rewrite Hw; cbn [negb]. cbv zeta.
  destruct (truthy (get (req_query req) "user")); cbn [negb]; run_try.
  - split; [|split]; [| discriminate |].
    + destruct (up _) as [|resp0]; cbn [fst snd storedToken calls reply_status];
        [split; discriminate|].
      destruct (json_body resp0); cbn [fst snd reply_status]; split; discriminate.
    + intros _. eexists. split.
      { destruct (up _) as [|resp0]; cbn [fst snd storedToken calls]; [reflexivity|].
        destruct (json_body resp0); reflexivity. }
      split; [reflexivity|].
      destruct (up _) as [|resp0]; cbn [fst snd storedToken calls reply_status];
        [now right|].
      destruct (json_body resp0); cbn [fst snd reply_status]; auto.
  - split; [|split]; [ now split | reflexivity | discriminate ].
Qed.

Lemma locations_400_iff_no_user_witness :
  locations (answering 200 (VObj []))
    {| req_query := [("user", VStr "")]; req_params := []; req_body := VUndefined |}
    (logged_in "tok")
  = (logged_in "tok", Send 400 (VObj [("error", VStr "Missing user URI")]))
  /\ exists u,
       calls (fst (locations (answering 200 (VObj []))
                     {| req_query := [("user", VStr "U 1")]; req_params := [];
                        req_body := VUndefined |}
                     (logged_in "tok"))) = [u]
       /\ f_url u = "https://api.calendly.com/locations?user=U%201".
Proof.
  split.
  - apply (proj1 (proj2 (locations_400_iff_no_user (answering 200 (VObj []))
                           {| req_query := [("user", VStr "")]; req_params := [];
                              req_body := VUndefined |}
                           (logged_in "tok") eq_refl))).
    reflexivity.
  - destruct (proj2 (proj2 (locations_400_iff_no_user (answering 200 (VObj []))
                              {| req_query := [("user", VStr "U 1")]; req_params := [];
                                 req_body := VUndefined |}
                              (logged_in "tok") eq_refl)) eq_refl)
      as (u & Hlog & Hurl & _).
    exists u. split; [exact Hlog | exact Hurl].
Defined.

(** *** GET /list-event-types, further *)

(** X14. With a token stored, whatever [req.query] holds, the call of
    GET /list-event-types carries one parameter per property of [req.query],
    in order, whose value is the property's value as a string: a name given
    several times arrives upstream once, with its values joined by commas. *)
Theorem list_event_types_one_parameter_per_property up req w :
  truthy (storedToken w) = true ->
  exists u qs,
    calls (fst (list_event_types up req w)) = (calls w ++ [u])%list
    /\ f_url u = "https://api.calendly.com/event_types?" ++ qs
    /\ urlencoded_parse qs
       = map (fun kv => (fst kv, to_string (snd kv))) (req_query req).
Proof.
  intros Hw. unfold list_event_types. rewrite Hw; cbn [negb]. run_try.
  eexists. eexists. split.
  { destruct (up _) as [|resp0]; cbn [fst snd storedToken calls]; [reflexivity|].
    destruct (json_body resp0); reflexivity. }
  cbn [f_url]. split; [reflexivity|].
  apply urlencoded_parse_toString.
Qed.

Lemma list_event_types_one_parameter_per_property_witness :
  exists u qs,
    calls (fst (list_event_types offline
                  {| req_query := [("count", VArr [VStr "5"; VStr "10"]);
                                   ("sort", VStr "name:asc")];
                     req_params := []; req_body := VUndefined |}
                  (logged_in "tok"))) = [u]
    /\ f_url u = "https://api.calendly.com/event_types?" ++ qs
    /\ urlencoded_parse qs = [("count", "5,10"); ("sort", "name:asc")].
Proof.
  apply (list_event_types_one_parameter_per_property offline
           {| req_query := [("count", VArr [VStr "5"; VStr "10"]);
                            ("sort", VStr "name:asc")];
              req_params := []; req_body := VUndefined |}
           (logged_in "tok")); reflexivity.
Defined.

(** *** POST /create-event-type, further *)

Lemma set_prop_twice (k : string) (v : value) (o : object) :
  set_prop k v (set_prop k v o) = set_prop k v o.
Proof.
  induction o as [|[k' v'] o IH]; cbn [set_prop].
  - now rewrite String.eqb_refl.
  - destruct (String.eqb k' k) eqn:E; cbn [set_prop].
    + now rewrite String.eqb_refl.
    + now rewrite E, IH.
Qed.

(** X15. The [active] coercion settles at once: sending the body that
    POST /create-event-type forwarded through the route again forwards that
    same body. *)
Theorem create_event_type_coercion_settles up req w u (fwd : object) up' req' w' :
  truthy (storedToken w) = true ->
  calls (fst (create_event_type up req w)) = (calls w ++ [u])%list ->
  f_body u = Some (VObj fwd) ->
  truthy (storedToken w') = true ->
  req_body req' = VObj fwd ->
  exists u',
    calls (fst (create_event_type up' req' w')) = (calls w' ++ [u'])%list
    /\ f_body u' = Some (VObj fwd).
Proof.
  intros Hw Hlog Hfwd Hw' Hbody. revert Hlog.
  unfold create_event_type. rewrite Hw, Hw'; cbn [negb]. run_try. rewrite Hbody.
  destruct (get_prop (req_body req) "active") as [a|];
    cbn [fst snd storedToken calls];
    [ | intros Hlog; now apply log_grows in Hlog ].
  intros Hlog.
  assert (Hu : f_body u
               = Some (VObj (set_prop "active"
                               (VBool (strict_equals a (VBool true)
                                       || strict_equals a (VStr "true")))
                               (own_props (req_body req))))).
  { revert Hlog. destruct (up _) as [|resp0]; cbn [fst snd storedToken calls].
    - intros Hlog. apply last_call_inj in Hlog. now subst u.
    - destruct (json_body resp0); cbn [fst snd storedToken calls];
        [destruct (ok resp0); cbn [negb fst snd storedToken calls]|];
        intros Hlog; apply last_call_inj in Hlog; now subst u. }
  rewrite Hfwd in Hu. injection Hu as ->.
  cbn [get_prop own_props]. unfold get. rewrite lookup_set_prop_same.
  cbn [fst snd storedToken calls].
  eexists. split.
  { destruct (up' _) as [|resp0]; cbn [fst snd storedToken calls]; [reflexivity|].
    destruct (json_body resp0); cbn [fst snd storedToken calls]; [|reflexivity].
    destruct (ok resp0); reflexivity. }
  cbn [f_body]. f_equal. f_equal.
  set (c := strict_equals a (VBool true) || strict_equals a (VStr "true")).
  replace (strict_equals (VBool c) (VBool true) || strict_equals (VBool c) (VStr "true"))
    with c by (destruct c; reflexivity).
  apply set_prop_twice.
Qed.

Lemma create_event_type_coercion_settles_witness :
  exists u',
    calls (fst (create_event_type offline
                  {| req_query := []; req_params := [];
                     req_body := VObj [("active", VBool true); ("name", VStr "Intro")] |}
                  (logged_in "tok-2"))) = [u']
    /\ f_body u' = Some (VObj [("active", VBool true); ("name", VStr "Intro")]).
Proof.
  apply (create_event_type_coercion_settles (answering 201 (VObj []))
           {| req_query := []; req_params := [];
              req_body := VObj [("active", VStr "true"); ("name", VStr "Intro")] |}
           (logged_in "tok")
           {| f_url := "https://api.calendly.com/event_types"; f_method := "POST";
              f_headers := [("Authorization", "Bearer tok");
                            ("Content-Type", "application/json")];
              f_body := Some (VObj [("active", VBool true); ("name", VStr "Intro")]) |}
           [("active", VBool true); ("name", VStr "Intro")]
           offline
           {| req_query := []; req_params := [];
              req_body := VObj [("active", VBool true); ("name", VStr "Intro")] |}
           (logged_in "tok-2")); reflexivity.
Defined.

End Server.
